(** * hdfs_info: the two report interpreters of [hdfs_info.py]

    A shallow embedding of [interpret_fsck_output] and
    [interpret_dfsadmin_report], together with the Python [str] methods
    they call, and the properties of the report parsers proved on it.

    Modelling conventions.
    - A Python [str] is a [string]; its characters are the 8-bit code
      points (the Latin-1 range of Python's [str]).
    - A Python [dict] is a [gmap] with [string] keys: equality of two
      [dict]s in Python does not look at the insertion order, and neither
      does equality of [gmap]s.
    - The interpreters mutate their dictionaries in place, but every
      object they store is rebound to a fresh one right after it is
      stored, so no stored object is reachable under two names; the state
      is threaded explicitly.
    - An uncaught exception is the [Raise] result. *)

From Stdlib Require Import ZArith Ascii String.
From stdpp Require Import gmap strings list fin_maps.

Open Scope string_scope.
Open Scope list_scope.

(** ** Python [str] methods *)

Module PyStr.

(** [c.isspace()] for a code point below 256: the characters that
    [str.strip()] removes. *)
Definition isspace (c : ascii) : bool :=
  let n := N_of_ascii c in
  ((9 <=? n) && (n <=? 13) || (28 <=? n) && (n <=? 32)
   || (n =? 133) || (n =? 160))%N.

(** The line boundaries of [str.splitlines()] below 256. *)
Definition islinebreak (c : ascii) : bool :=
  let n := N_of_ascii c in
  ((10 <=? n) && (n <=? 13) || (28 <=? n) && (n <=? 30) || (n =? 133))%N.

(** [c.lower()] for a code point below 256. *)
Definition lower_char (c : ascii) : ascii :=
  let n := N_of_ascii c in
  if ((65 <=? n) && (n <=? 90)
      || (192 <=? n) && (n <=? 222) && negb (n =? 215))%N
  then ascii_of_N (n + 32) else c.

Fixpoint lower (s : string) : string :=
  match s with
  | "" => ""
  | String c s' => String (lower_char c) (lower s')
  end.

(** Removing the leading, and the trailing, characters that satisfy [sp]. *)
Fixpoint lstrip_with (sp : ascii → bool) (s : string) : string :=
  match s with
  | "" => ""
  | String c s' => if sp c then lstrip_with sp s' else s
  end.

Fixpoint rstrip_with (sp : ascii → bool) (s : string) : string :=
  match s with
  | "" => ""
  | String c s' =>
      match rstrip_with sp s' with
      | "" => if sp c then "" else String c ""
      | r => String c r
      end
  end.

Definition lstrip : string → string := lstrip_with isspace.
Definition rstrip : string → string := rstrip_with isspace.

(** [s.strip()] *)
Definition strip (s : string) : string := rstrip (lstrip s).

(** [c in s] for a one-character [c]. *)
Fixpoint contains (c : ascii) (s : string) : bool :=
  match s with
  | "" => false
  | String a s' => Ascii.eqb a c || contains c s'
  end.

(** [s.startswith(p)] *)
Fixpoint startswith (p s : string) : bool :=
  match p, s with
  | "", _ => true
  | String a p', String b s' => Ascii.eqb a b && startswith p' s'
  | _, "" => false
  end.

(** [s.split(sep)[0]]: the text before the leftmost occurrence of the
    non-empty [sep], the whole of [s] when there is none. *)
Fixpoint split_head (sep s : string) : string :=
  match s with
  | "" => ""
  | String a s' => if startswith sep s then "" else String a (split_head sep s')
  end.

(** [s.split(c, 1)[1]] when [c] occurs in [s]: the text after its first
    occurrence. *)
Fixpoint after_first (c : ascii) (s : string) : string :=
  match s with
  | "" => ""
  | String a s' => if Ascii.eqb a c then s' else after_first c s'
  end.

(** [s.split(c)[-1]]: the text after the last occurrence of [c], the
    whole of [s] when there is none. *)
Fixpoint split_last (c : ascii) (s : string) : string :=
  match s with
  | "" => ""
  | String a s' =>
      if contains c s' then split_last c s'
      else if Ascii.eqb a c then s' else s
  end.

(** [s.replace(c, r)] for a one-character [c]. *)
Fixpoint replace (c : ascii) (r : string) (s : string) : string :=
  match s with
  | "" => ""
  | String a s' =>
      if Ascii.eqb a c then r +:+ replace c r s' else String a (replace c r s')
  end.

(** [s.splitlines()].  [break_lines] cuts at every line boundary, a
    carriage return followed by a line feed counting as one; the line
    after the last boundary is dropped when it is empty. *)
Fixpoint break_lines (s : string) : string * list string :=
  match s with
  | "" => ("", [])
  | String a s' =>
      let '(l, ls) := break_lines s' in
      if islinebreak a then
        if Ascii.eqb a "013" && startswith (String "010" "") s'
        then (l, ls) else ("", l :: ls)
      else (String a l, ls)
  end.

Fixpoint drop_last_empty (ls : list string) : list string :=
  match ls with
  | [] => []
  | [l] => if String.eqb l "" then [] else [l]
  | l :: ls' => l :: drop_last_empty ls'
  end.

Definition splitlines (s : string) : list string :=
  let '(l, ls) := break_lines s in drop_last_empty (l :: ls).

(** [int(s)]: surrounding whitespace is ignored, then an optional sign
    and decimal digits, single underscores allowed between digits.
    [None] stands for the [ValueError] that [int] raises.  The
    whitespace of [int] is not that of [strip]: the separators 28 to 31
    are not skipped. *)
Definition isspace_int (c : ascii) : bool :=
  let n := N_of_ascii c in
  ((9 <=? n) && (n <=? 13) || (n =? 32) || (n =? 133) || (n =? 160))%N.

Definition digit (c : ascii) : option Z :=
  let n := N_of_ascii c in
  if ((48 <=? n) && (n <=? 57))%N then Some (Z.of_N n - 48)%Z else None.

(** [digits_from acc s]: [s] continues a numeral whose digits so far
    have the value [acc]; the previous character was a digit. *)
Fixpoint digits_from (acc : Z) (s : string) : option Z :=
  match s with
  | "" => Some acc
  | String c s' =>
      match digit c with
      | Some d => digits_from (10 * acc + d)%Z s'
      | None =>
          if Ascii.eqb c "_" then
            match s' with
            | String c' s'' =>
                match digit c' with
                | Some d => digits_from (10 * acc + d)%Z s''
                | None => None
                end
            | "" => None
            end
          else None
      end
  end.

Definition unsigned (s : string) : option Z :=
  match s with
  | String c s' =>
      match digit c with
      | Some d => digits_from d s'
      | None => None
      end
  | "" => None
  end.

Definition int (s : string) : option Z :=
  match rstrip_with isspace_int (lstrip_with isspace_int s) with
  | String "+" s' => unsigned s'
  | String "-" s' => Z.opp <$> unsigned s'
  | s' => unsigned s'
  end.

(** *** Predicates on strings, for the statements *)

(** Every character of [s] satisfies [p]. *)
Fixpoint allc (p : ascii → bool) (s : string) : bool :=
  match s with
  | "" => true
  | String a s' => p a && allc p s'
  end.

(** [sep in s]: [sep] occurs in [s] somewhere. *)
Fixpoint occurs (sep s : string) : bool :=
  startswith sep s
  || match s with
     | "" => false
     | String _ s' => occurs sep s'
     end.

(** [s] is empty or starts with a character that is no whitespace. *)
Definition head_nonspace (s : string) : bool :=
  match s with
  | "" => true
  | String a _ => negb (isspace a)
  end.

End PyStr.

Import PyStr.

(** ** Values, exceptions *)

(** What a report holds under a key: a string, a dictionary of strings
    (a section, or an entry of an array section) or a list of such
    dictionaries (an array section). *)
Inductive Value :=
| Leaf (s : string)
| Object (o : gmap string string)
| List (l : list (gmap string string)).

Inductive exn :=
| ValueError (literal : string)   (* [int] on a text that is no integer *)
| TypeError                       (* item assignment on a [str] or a [list] *)
| KeyError (key : string).

Inductive result (A : Type) :=
| Return (a : A)
| Raise (e : exn).
Arguments Return {A} a.
Arguments Raise {A} e.

#[global] Instance result_ret : MRet result := @Return.
#[global] Instance result_bind : MBind result := fun A B f m =>
  match m with
  | Return a => f a
  | Raise e => Raise e
  end.

(** The [for] loop over the lines: the first exception ends it. *)
Fixpoint run {S : Type} (step : S → string → result S) (st : S) (lines : list string)
  : result S :=
  match lines with
  | [] => Return st
  | l :: ls => st' ← step st l; run step st' ls
  end.

(** [if s:] on an optional string: [None] and the empty string are false. *)
Definition truthy (s : option string) : bool :=
  match s with
  | Some (String _ _) => true
  | _ => false
  end.

(** [d[sec][key] = value]: [d[sec]] must be there and be a dictionary. *)
Definition setitem_in (d : gmap string Value) (sec key value : string)
  : result (gmap string Value) :=
  match d !! sec with
  | Some (Object o) => Return (<[sec := Object (<[key := value]> o)]> d)
  | Some (Leaf _) | Some (List _) => Raise TypeError
  | None => Raise (KeyError sec)
  end.

(** ** [interpret_fsck_output] *)

Module Fsck.

Record state := State {
  fsck_dict : gmap string Value;
  current_section : option string;
}.

Definition init : state := State ∅ None.

(** [key, value = line.split(':', 1)] followed by the two [strip]s. *)
Definition key_of (line : string) : string := strip (split_head ":" line).
Definition value_of (line : string) : string := strip (after_first ":" line).

(** The body of the loop, for one line. *)
Definition step (st : state) (line : string) : result state :=
  if contains ":" line then
    let key := key_of line in
    let value := value_of line in
    if String.eqb value "" then
      Return (State (<[key := Object ∅]> (fsck_dict st)) (Some key))
    else
      match current_section st with
      | Some sec =>
          d ← setitem_in (fsck_dict st) sec key value;
          Return (State d (current_section st))
      | None =>
          Return (State (<[key := Leaf value]> (fsck_dict st)) None)
      end
  else Return st.

Definition interpret_fsck_lines (lines : list string) : result (gmap string Value) :=
  st ← run step init lines; Return (fsck_dict st).

(** A line that opens a section: a colon, and nothing but whitespace
    after the first one. *)
Definition is_header (line : string) : bool :=
  contains ":" line && String.eqb (value_of line) "".

Definition interpret_fsck_output (fsck_output : string) : result (gmap string Value) :=
  interpret_fsck_lines (splitlines fsck_output).

(** *** Invariants of the loop *)

(** The section that is open is always bound to a dictionary, so the
    nested assignment of line 175 never raises. *)
Definition wf (st : state) : Prop :=
  ∀ sec, current_section st = Some sec → ∃ o, fsck_dict st !! sec = Some (Object o).

(** Two runs over the same lines, from states that agree on the open
    section and on what is bound to [k], agree on [k] at the end. *)
Definition agree (k : string) (st1 st2 : state) : Prop :=
  (∃ sec, current_section st1 = Some sec ∧ current_section st2 = Some sec)
  ∧ fsck_dict st1 !! k = fsck_dict st2 !! k.

(** Where the key of a line can be found in a report: at the top level
    or inside a section. *)
Definition key_in (d : gmap string Value) (k : string) : Prop :=
  is_Some (d !! k) ∨ ∃ sec o, d !! sec = Some (Object o) ∧ is_Some (o !! k).

Definition keys_from (lines : list string) (d : gmap string Value) : Prop :=
  ∀ k, key_in d k →
    ∃ line, line ∈ lines ∧ contains ":" line = true ∧ k = strip (split_head ":" line).

End Fsck.

(** ** [interpret_dfsadmin_report] *)

Module Dfsadmin.

Record state := State {
  dfsadmin_dict : gmap string Value;
  current_section : option string;
  current_object_list : list (gmap string string);
  current_object : gmap string string;
  objects_remaining : Z;
  in_object_section : bool;
  is_array : bool;
}.

Definition init : state := State ∅ None [] ∅ 0 false false.

(** [key.strip().split(' (')[0].lower().replace(' ', '_').replace('%', '_pct')] *)
Definition normalize (key : string) : string :=
  replace "%" "_pct" (replace " " "_" (lower (split_head " (" (strip key)))).

(** The key and the value of a stripped line with a colon in it. *)
Definition key_of (line : string) : string := normalize (split_head ":" line).
Definition value_of (line : string) : string :=
  split_head " (" (strip (after_first ":" line)).

(** The text handed to [int]: [line.split('(')[-1].split(')')[0]]. *)
Definition count_literal (line : string) : string :=
  split_head ")" (split_last "(" line).

(** [int(...) if '(' in line.split(':')[0] else 1] *)
Definition count_of (line : string) : result Z :=
  if contains "(" (split_head ":" line) then
    match int (count_literal line) with
    | Some n => Return n
    | None => Raise (ValueError (count_literal line))
    end
  else Return 1%Z.

(** Lines 201-206: the section that is open when a header is read. *)
Definition flush_at_header (st : state) : gmap string Value :=
  match current_section st with
  | Some sec =>
      if truthy (current_section st) then
        if is_array st
        then <[sec := List (current_object_list st)]> (dfsadmin_dict st)
        else <[sec := Object (current_object st)]> (dfsadmin_dict st)
      else dfsadmin_dict st
  | None => dfsadmin_dict st
  end.

(** Lines 199-213: a line whose value is empty. *)
Definition header (st : state) (line : string) : result state :=
  let d := flush_at_header st in
  n ← count_of line;
  Return (State d (Some (key_of line)) [] ∅ n (0 <? n)%Z (contains "(" line)).

(** Lines 214-224: a line whose value is not empty. *)
Definition key_value (st : state) (key value : string) : result state :=
  if in_object_section st && (0 <? objects_remaining st)%Z then
    Return (State (dfsadmin_dict st) (current_section st) (current_object_list st)
              (<[key := value]> (current_object st))
              (objects_remaining st) (in_object_section st) (is_array st))
  else
    match current_section st with
    | Some sec =>
        if truthy (current_section st) then
          let d := match dfsadmin_dict st !! sec with
                   | None => <[sec := Object ∅]> (dfsadmin_dict st)
                   | Some _ => dfsadmin_dict st
                   end in
          d' ← setitem_in d sec key value;
          Return (State d' (current_section st) (current_object_list st)
                    (current_object st)
                    (objects_remaining st) (in_object_section st) (is_array st))
        else
          Return (State (<[key := Leaf value]> (dfsadmin_dict st))
                    (current_section st) (current_object_list st) (current_object st)
                    (objects_remaining st) (in_object_section st) (is_array st))
    | None =>
        Return (State (<[key := Leaf value]> (dfsadmin_dict st))
                  (current_section st) (current_object_list st) (current_object st)
                  (objects_remaining st) (in_object_section st) (is_array st))
    end.

(** Lines 225-236: an empty line. *)
Definition blank (st : state) : state :=
  match current_section st with
  | Some sec =>
      if in_object_section st then
        if negb (is_array st) then
          State (<[sec := Object (current_object st)]> (dfsadmin_dict st)) None
            (current_object_list st) ∅
            (objects_remaining st - 1) (in_object_section st) (is_array st)
        else if bool_decide (current_object st = ∅) then
          State (dfsadmin_dict st) (current_section st)
            (current_object_list st) ∅
            (objects_remaining st) (in_object_section st) (is_array st)
        else
          State (dfsadmin_dict st) (current_section st)
            (current_object_list st ++ [current_object st]) ∅
            (objects_remaining st - 1) (in_object_section st) (is_array st)
      else st
  | None => st
  end.

(** The body of the loop, for one line. *)
Definition step (st : state) (line0 : string) : result state :=
  let line := strip line0 in
  if contains ":" line then
    if String.eqb (value_of line) "" then header st line
    else key_value st (key_of line) (value_of line)
  else if String.eqb line "" then Return (blank st)
  else Return st.

(** Lines 238-245: the section that is open at the end of the input. *)
Definition finish (st : state) : gmap string Value :=
  match current_section st with
  | Some sec =>
      if truthy (current_section st) then
        if is_array st then
          <[sec := List (if bool_decide (current_object st = ∅)
                         then current_object_list st
                         else current_object_list st ++ [current_object st])]>
            (dfsadmin_dict st)
        else <[sec := Object (current_object st)]> (dfsadmin_dict st)
      else dfsadmin_dict st
  | None => dfsadmin_dict st
  end.

Definition interpret_dfsadmin_lines (lines : list string) : result (gmap string Value) :=
  st ← run step init lines; Return (finish st).

Definition interpret_dfsadmin_report (dfsadmin_output : string)
  : result (gmap string Value) :=
  interpret_dfsadmin_lines (splitlines dfsadmin_output).

(** The three kinds of lines that [step] tells apart; any other line
    is skipped. *)
Definition is_header (l : string) : bool :=
  contains ":" (strip l) && String.eqb (value_of (strip l)) "".
Definition is_key_value (l : string) : bool :=
  contains ":" (strip l) && negb (String.eqb (value_of (strip l)) "").
Definition is_blank (l : string) : bool := String.eqb (strip l) "".

(** The header of an array section: a parenthesis in its key. *)
Definition is_array_header (l : string) : bool :=
  is_header l && contains "(" (split_head ":" (strip l)).

(** An entry of an array section as the report prints it: its pairs,
    one per line, then the blank lines that end it. *)
Record entry := Entry {
  entry_pairs : list string;
  entry_blanks : list string;
}.

Definition entry_lines (e : entry) : list string := entry_pairs e ++ entry_blanks e.

Definition nonempty {A : Type} (l : list A) : bool :=
  match l with [] => false | _ => true end.

Definition entry_ok (e : entry) : bool :=
  nonempty (entry_pairs e) && forallb is_key_value (entry_pairs e)
  && nonempty (entry_blanks e) && forallb is_blank (entry_blanks e).

(** Where a section may stop: at the end of the input, or at the next
    header when its last entry has its blank line. *)
Definition section_end (last post : list string) : bool :=
  match post with
  | [] => true
  | h2 :: _ => is_header h2 && negb (nonempty last)
  end.

(** The number of entries that a run of complete entries followed by
    the pairs [last] of an entry that no blank line ends amounts to. *)
Definition entry_count (es : list entry) (last : list string) : nat :=
  length es + (if nonempty last then 1 else 0).

(** *** Normalization, states and sections, for the statements *)

(** What [normalize] does after the key is stripped and cut at its
    parenthetical. *)
Definition canon (t : string) : string :=
  replace "%" "_pct" (replace " " "_" (lower t)).

(** A character that the three last steps of [normalize] leave alone. *)
Definition settled (a : ascii) : bool :=
  negb (Ascii.eqb a " ") && negb (Ascii.eqb a "%") && Ascii.eqb (lower_char a) a.

(** A character that is no whitespace, the space apart. *)
Definition space_or_visible (a : ascii) : bool :=
  negb (isspace a) || Ascii.eqb a " ".

(** The state while the array section [name] is open. *)
Definition in_array (d : gmap string Value) (name : string)
    (L : list (gmap string string)) (o : gmap string string) (rem : Z) (io : bool)
  : state :=
  State d (Some name) L o rem io true.

(** What the section [name] holds in a report, as a set of keys. *)
Definition holds (d : gmap string Value) (name k : string) : Prop :=
  ∃ o, d !! name = Some (Object o) ∧ is_Some (o !! k).

(** A line whose key is not [name], read while the open section is not
    [name], changes neither what the report holds under [name] nor that
    the open section is another one. *)
Definition not_named (name : string) (l : string) : bool :=
  negb (contains ":" (strip l)) || negb (String.eqb (key_of (strip l)) name).

End Dfsadmin.

Definition nl : string := String "010" "".
Definition join_lines (ls : list string) : string :=
  match ls with
  | [] => ""
  | l :: ls' => foldl (fun acc x => acc +:+ nl +:+ x) l ls'
  end.

(** ** Pairs of a report, in the order of the lines *)

Module Pairs.

(** [d[k] = v] for each pair in turn: a later pair replaces an earlier
    one with the same key. *)
Definition assign_all (m : gmap string string) (kvs : list (string * string))
  : gmap string string :=
  foldl (fun m kv => <[kv.1 := kv.2]> m) m kvs.

(** The pairs of the lines of a consistency report that are no headers. *)
Definition fsck_pair (l : string) : option (string * string) :=
  if contains ":" l && negb (String.eqb (Fsck.value_of l) "")
  then Some (Fsck.key_of l, Fsck.value_of l) else None.
Definition fsck_pairs (lines : list string) : list (string * string) :=
  omap fsck_pair lines.

(** The pairs of the lines of a capacity report that are no headers. *)
Definition dfs_pair (l : string) : option (string * string) :=
  if Dfsadmin.is_key_value l
  then Some (Dfsadmin.key_of (strip l), Dfsadmin.value_of (strip l)) else None.
Definition dfs_pairs (lines : list string) : list (string * string) :=
  omap dfs_pair lines.

(** What a report holds, with [P] for its keys and [Q] for its strings:
    every key at every level satisfies [P], every string [Q], and no
    dictionary of a list is empty. *)
Section ok.
Context (P Q : string → Prop).

Definition object_ok (o : gmap string string) : Prop :=
  map_Forall (fun k v => P k ∧ Q v) o.

Definition value_ok (x : Value) : Prop :=
  match x with
  | Leaf s => Q s
  | Object o => object_ok o
  | List l => Forall (fun o => o ≠ ∅ ∧ object_ok o) l
  end.

Definition report_ok (d : gmap string Value) : Prop :=
  map_Forall (fun k x => P k ∧ value_ok x) d.

End ok.

(** The keys and the strings of a capacity report. *)
Definition normalized (k : string) : Prop := allc Dfsadmin.settled k = true.
Definition cut (v : string) : Prop := v ≠ "" ∧ occurs " (" v = false.

(** The keys and the strings of a consistency report. *)
Definition stripped (k : string) : Prop := strip k = k.
Definition stripped_nonempty (v : string) : Prop := v ≠ "" ∧ strip v = v.

(** The invariant of the loop of [interpret_dfsadmin_report]. *)
Definition dfs_sound (st : Dfsadmin.state) : Prop :=
  report_ok normalized cut (Dfsadmin.dfsadmin_dict st)
  ∧ (∀ sec, Dfsadmin.current_section st = Some sec → normalized sec)
  ∧ object_ok normalized cut (Dfsadmin.current_object st)
  ∧ Forall (fun o => o ≠ ∅ ∧ object_ok normalized cut o) (Dfsadmin.current_object_list st).

(** The invariant of the loop of [interpret_fsck_output]. *)
Definition fsck_sound (st : Fsck.state) : Prop :=
  report_ok stripped stripped_nonempty (Fsck.fsck_dict st)
  ∧ (∀ sec, Fsck.current_section st = Some sec → stripped sec).

(** The dictionary that the pairs of an entry make. *)
Definition entry_object (e : Dfsadmin.entry) : gmap string string :=
  assign_all ∅ (dfs_pairs (Dfsadmin.entry_pairs e)).

(** A header line with an opening parenthesis somewhere. *)
Definition header_with_parenthesis (l : string) : bool :=
  Dfsadmin.is_header l && contains "(" (strip l).

(** The invariant of the loop of [interpret_dfsadmin_report] on a
    report whose headers have no parenthesis: no section is an array,
    and an open section still waits for its only object. *)
Definition scalar_only (st : Dfsadmin.state) : Prop :=
  Dfsadmin.is_array st = false
  ∧ ∀ sec, Dfsadmin.current_section st = Some sec →
      Dfsadmin.in_object_section st = true ∧ (0 < Dfsadmin.objects_remaining st)%Z.

(** The invariant of the loop inside the array section [name] of
    declared count [n]: the entries collected and those still expected
    are no more than [n], and an entry is in progress only while one is
    expected. *)
Definition within (name : string) (n : Z) (st : Dfsadmin.state) : Prop :=
  Dfsadmin.current_section st = Some name
  ∧ Dfsadmin.is_array st = true
  ∧ (Z.of_nat (length (Dfsadmin.current_object_list st))
     + Z.max 0 (Dfsadmin.objects_remaining st) ≤ Z.max 0 n)%Z
  ∧ (Dfsadmin.current_object st ≠ ∅ →
     (0 < Dfsadmin.objects_remaining st)%Z ∧ Dfsadmin.in_object_section st = true).

(** A line that [interpret_dfsadmin_report] does not skip. *)
Definition dfs_read (l : string) : bool :=
  contains ":" (strip l) || Dfsadmin.is_blank l.

End Pairs.

(** ** [parse_hdfs_listing] and [get_all_hdfs_configurations] *)

(** The exceptions of the rest of the module: one of the report
    interpreters or of a library function, a global name that is not
    bound, an attribute of [None]. *)
Inductive error :=
| Raised (e : exn)
| NameError (name : string)
| AttributeError.

Inductive outcome (A : Type) :=
| Ok (a : A)
| Fail (e : error).
Arguments Ok {A} a.
Arguments Fail {A} e.

Module Listing.

(** [s.split()]: the maximal runs of characters that are no whitespace.
    [fields s] is the run that [s] starts with, empty when [s] starts
    with whitespace, and the runs after it. *)
Fixpoint fields (s : string) : string * list string :=
  match s with
  | "" => ("", [])
  | String a s' =>
      let '(w, ws) := fields s' in
      if isspace a then ("", if String.eqb w "" then ws else w :: ws)
      else (String a w, ws)
  end.

Definition split_ws (s : string) : list string :=
  let '(w, ws) := fields s in if String.eqb w "" then ws else w :: ws.

(** [' '.join(parts)] *)
Fixpoint join_spaces (parts : list string) : string :=
  match parts with
  | [] => ""
  | [p] => p
  | p :: ps => p +:+ " " +:+ join_spaces ps
  end.

Section listing.
(** The objects that [datetime.strptime] returns, and what the global
    name [datetime] is bound to when the function runs: [None] when it
    is not bound, else the [strptime] of the object it is bound to. *)
Context {D : Type} (datetime : option (string → string → result D)).

(** An entry of the listing: the dictionary with the seven keys of
    lines 36-44. *)
Record entry := Entry {
  permissions : string;
  replication : string;
  owner : string;
  group : string;
  size : string;
  modification_date : D;
  path : string;
}.

(** A line is listed when it has eight fields or more. *)
Definition listed (line : string) : bool := (8 <=? length (split_ws line))%nat.

Definition date_of (line : string) : string :=
  let parts := split_ws line in nth 5 parts "" +:+ " " +:+ nth 6 parts "".

(** The body of the loop, for one line. *)
Definition step (listing : list entry) (line : string) : outcome (list entry) :=
  let parts := split_ws line in
  if (8 <=? length parts)%nat then
    match datetime with
    | None => Fail (NameError "datetime")
    | Some strptime =>
        match strptime (nth 5 parts "" +:+ " " +:+ nth 6 parts "") "%Y-%m-%d %H:%M" with
        | Return d =>
            Ok (listing ++ [Entry (nth 0 parts "") (nth 1 parts "") (nth 2 parts "")
                              (nth 3 parts "") (nth 4 parts "") d
                              (join_spaces (drop 7 parts))])
        | Raise e => Fail (Raised e)
        end
    end
  else Ok listing.

(** The entry that a listed line gives, with [date] for the object
    that its date is parsed to. *)
Definition entry_of (date : string → D) (line : string) : entry :=
  let parts := split_ws line in
  Entry (nth 0 parts "") (nth 1 parts "") (nth 2 parts "") (nth 3 parts "")
    (nth 4 parts "") (date line) (join_spaces (drop 7 parts)).

Fixpoint loop (listing : list entry) (lines : list string) : outcome (list entry) :=
  match lines with
  | [] => Ok listing
  | l :: ls =>
      match step listing l with
      | Ok listing' => loop listing' ls
      | Fail e => Fail e
      end
  end.

Definition parse_hdfs_listing_with (listing_output : string) : outcome (list entry) :=
  loop [] (splitlines listing_output).

End listing.

(** The module imports no [datetime]: the name is not bound. *)
Definition parse_hdfs_listing (listing_output : string) : outcome (list (@entry unit)) :=
  parse_hdfs_listing_with None listing_output.

End Listing.

Module Config.

(** An element of an XML tree as [xml.etree.ElementTree] gives it: its
    tag, its text ([None] when it has none) and its children. *)
#[local] Unset Elimination Schemes.
Inductive element :=
| Element (tag : string) (text : option string) (children : list element).
#[local] Set Elimination Schemes.

Definition tag (e : element) : string := let 'Element t _ _ := e in t.
Definition text (e : element) : option string := let 'Element _ x _ := e in x.
Definition children (e : element) : list element := let 'Element _ _ c := e in c.

(** [e.findall(t)] and [e.find(t)] for a plain tag [t]: the children of
    [e] with that tag, and the first of them. *)
Definition findall (t : string) (e : element) : list element :=
  List.filter (fun c => String.eqb (tag c) t) (children e).
Definition find (t : string) (e : element) : option element :=
  List.find (fun c => String.eqb (tag c) t) (children e).

(** Lines 267-269, for one [property] element.  A key or a value of
    the dictionary is [None] when the element has no text. *)
Definition set_property (config_dict : gmap (option string) (option string))
    (property : element) : outcome (gmap (option string) (option string)) :=
  match find "name" property with
  | None => Fail AttributeError
  | Some name =>
      match find "value" property with
      | None => Fail AttributeError
      | Some value => Ok (<[text name := text value]> config_dict)
      end
  end.

Fixpoint set_properties (config_dict : gmap (option string) (option string))
    (properties : list element) : outcome (gmap (option string) (option string)) :=
  match properties with
  | [] => Ok config_dict
  | p :: ps =>
      match set_property config_dict p with
      | Ok d => set_properties d ps
      | Fail e => Fail e
      end
  end.

(** Lines 261-269, for one of the two files: [None] when the path is no
    file, else the root of the tree that [ET.parse] returns. *)
Definition read_file (config_dict : gmap (option string) (option string))
    (file : option element) : outcome (gmap (option string) (option string)) :=
  match file with
  | None => Ok config_dict
  | Some root => set_properties config_dict (findall "property" root)
  end.

(** [get_all_hdfs_configurations], as a function of what the two files
    [hdfs-site.xml] and [core-site.xml] of the configuration directory
    hold. *)
Definition get_all_hdfs_configurations (hdfs_site core_site : option element)
  : outcome (gmap (option string) (option string)) :=
  match read_file ∅ hdfs_site with
  | Ok d => read_file d core_site
  | Fail e => Fail e
  end.

(** A [property] element with a [name] and a [value] child, and the
    pair that it sets. *)
Definition complete (p : element) : bool :=
  match find "name" p, find "value" p with
  | Some _, Some _ => true
  | _, _ => false
  end.

Definition pair_of (p : element) : option string * option string :=
  (from_option text None (find "name" p), from_option text None (find "value" p)).

Definition properties_of (file : option element) : list element :=
  match file with
  | None => []
  | Some root => findall "property" root
  end.

(** [d[k] = v] for each pair in turn. *)
Definition set_all (d : gmap (option string) (option string))
    (kvs : list (option string * option string)) : gmap (option string) (option string) :=
  foldl (fun m kv => <[kv.1 := kv.2]> m) d kvs.

End Config.

(** ** [run_hdfs_command] and [hdfs_cli_discovery] *)

Module Cli.

Definition lift {A : Type} (m : result A) : outcome A :=
  match m with
  | Return a => Ok a
  | Raise e => Fail (Raised e)
  end.

Section cli.
(** What the call reads from its environment: the [hdfs_cmd] entry of
    the [cli] section of the configuration, the global
    [include_hdfs_files], the standard output of each command that is
    run, and the two configuration files. *)
Context (hdfs_cmd : string) (include_hdfs_files : bool)
        (stdout : list string → string)
        (hdfs_site core_site : option Config.element).

(** [run_hdfs_command]: the output of the command, stripped. *)
Definition run_hdfs_command (command : list string) : string := strip (stdout command).

(** The dictionary [hdfs_info] that is returned; [files] is [None] when
    the dictionary has no such key. *)
Record info := Info {
  namenodes : list string;
  secondarynamenodes : list string;
  backupnodes : list string;
  journalnodes : list string;
  nnRpcAddresses : list string;
  fsck : gmap string Value;
  dfsadmin : gmap string Value;
  files : option (list (@Listing.entry unit));
  all_configurations : gmap (option string) (option string);
}.

Definition bind {A B : Type} (m : outcome A) (f : A → outcome B) : outcome B :=
  match m with
  | Ok a => f a
  | Fail e => Fail e
  end.

Definition hdfs_cli_discovery : outcome info :=
  let namenodes := Listing.split_ws (run_hdfs_command [hdfs_cmd; "getconf"; "-namenodes"]) in
  let secondarynamenodes :=
    Listing.split_ws (run_hdfs_command [hdfs_cmd; "getconf"; "-secondarynamenodes"]) in
  let backupnodes :=
    Listing.split_ws (run_hdfs_command [hdfs_cmd; "getconf"; "-backupnodes"]) in
  let journalnodes :=
    Listing.split_ws (run_hdfs_command [hdfs_cmd; "getconf"; "-journalnodes"]) in
  let nnRpcAddresses :=
    Listing.split_ws (run_hdfs_command [hdfs_cmd; "getconf"; "-nnRpcAddresses"]) in
  bind (lift (Fsck.interpret_fsck_output (run_hdfs_command [hdfs_cmd; "fsck"; "/"])))
    (fun fsck =>
  bind (lift (Dfsadmin.interpret_dfsadmin_report
                (run_hdfs_command [hdfs_cmd; "dfsadmin"; "-report"])))
    (fun dfsadmin =>
  bind (if include_hdfs_files
        then bind (Listing.parse_hdfs_listing
                     (run_hdfs_command [hdfs_cmd; "dfs"; "-ls"; "-R"; "/"]))
               (fun listing => Ok (Some listing))
        else Ok None)
    (fun files =>
  bind (Config.get_all_hdfs_configurations hdfs_site core_site)
    (fun all_configurations =>
  Ok (Info namenodes secondarynamenodes backupnodes journalnodes nnRpcAddresses
        fsck dfsadmin files all_configurations))))).

End cli.

End Cli.

(** ** Reports used as examples *)

Module Reports.
Import Dfsadmin.

Definition scalar_report : string :=
  join_lines ["Name: "; "foo: bar"; ""; "baz: qux"].

Definition datanodes3 : string := "Live datanodes (3):".
Definition node1 : entry :=
  Entry ["Name: 10.0.0.1:50010 (host1)"; "DFS Used%: 3.5%"] [""].
Definition node2 : entry := Entry ["Name: 10.0.0.2:50010 (host2)"] [""].

(** Three datanodes are declared and the report stops after two. *)
Definition truncated_report : string :=
  join_lines (datanodes3 :: "" :: entry_lines node1 ++ entry_lines node2 ++ [""]).

(** One datanode is declared, and a pair follows its entry. *)
Definition one_node_report : list string :=
  ["Live datanodes (1):"; "Name: 10.0.0.1:50010 (host1)"; ""].

Definition dead_report : string :=
  join_lines ["Dead datanodes (0):"; "Last contact: never"; "Other:"; "k: v"].

(** A name bound to a string, then a header of count zero with the same
    name and a pair under it. *)
Definition clash_report : list string := ["a: v"; "A (0):"; "x: y"].

(** One datanode is declared and three entries follow. *)
Definition crowded_report : list string :=
  ["A (1):"; "x: 1"; ""; "y: 2"; ""; "z: 3"].

Definition listing_line : string :=
  "drwxr-xr-x - hdfs supergroup 0 2024-01-02 03:04 /tmp/a b".

Definition property (name value : string) : Config.element :=
  Config.Element "property" None
    [Config.Element "name" (Some name) []; Config.Element "value" (Some value) []].

Definition hdfs_site_example : option Config.element :=
  Some (Config.Element "configuration" None
          [property "dfs.replication" "3"; property "fs.defaultFS" "hdfs://a"]).
Definition core_site_example : option Config.element :=
  Some (Config.Element "configuration" None [property "fs.defaultFS" "hdfs://b"]).

(** The output of the commands: a listing of one line, nothing for the
    other commands. *)
Definition stdout_example (command : list string) : string :=
  if decide (command = ["hdfs"; "dfs"; "-ls"; "-R"; "/"]) then listing_line else "".

(** The output of the commands when nothing prints anything. *)
Definition stdout_silent (command : list string) : string := "".

(** An array section of one entry, then a pair at the top level whose
    key is the name of the section. *)
Definition overwritten_report : list string :=
  ["A (1):"; "x: 1"; ""; "B:"; ""; "a: 5"].

(** A section of count zero, then a section with the same name. *)
Definition reopened_report : list string := ["A (0):"; "x: 1"; "A:"; "y: 2"].

End Reports.

(** ** The [str] methods on examples *)

Example strip_ex : strip "  Live datanodes (3):  " = "Live datanodes (3):".
Proof. reflexivity. Qed.
Example split_head_ex : split_head " (" "Live datanodes (3)" = "Live datanodes".
Proof. reflexivity. Qed.
Example split_last_ex : split_last "(" "Live (a) datanodes (3):" = "3):".
Proof. reflexivity. Qed.
Example int_ex : int " 1_0 " = Some 10%Z /\ int "-3" = Some (-3)%Z /\ int "x" = None
  /\ int "1__0" = None /\ int "" = None /\ int "007" = Some 7%Z
  /\ int (String "028" "5") = None /\ int (String "160" "5") = Some 5%Z.
Proof. vm_compute. repeat split. Qed.
Example splitlines_ex :
  splitlines (String "a" (String "013" (String "010" (String "010" (String "b" (String "010" "")))))) = ["a"; ""; "b"].
Proof. reflexivity. Qed.

(** ** General facts: the loop, the result monad *)

Lemma run_app {S : Type} (step : S → string → result S) (st : S) (l1 l2 : list string) :
  run step st (l1 ++ l2) = (st' ← run step st l1; run step st' l2).
Proof.
  revert st. induction l1 as [|l l1 IH]; intros st; simpl; [done|].
  destruct (step st l) as [st1|e]; simpl; [apply IH | done].
Qed.

Lemma run_app_Return {S : Type} (step : S → string → result S) st st1 (l1 l2 : list string) :
  run step st l1 = Return st1 → run step st (l1 ++ l2) = run step st1 l2.
Proof. intros H. by rewrite run_app, H. Qed.

Lemma run_app_inv {S : Type} (step : S → string → result S) st st2 (l1 l2 : list string) :
  run step st (l1 ++ l2) = Return st2 →
  ∃ st1, run step st l1 = Return st1 ∧ run step st1 l2 = Return st2.
Proof.
  rewrite run_app. destruct (run step st l1) as [st1|e]; simpl; [eauto | done].
Qed.

Lemma bind_Return_inv {A B : Type} (m : result A) (f : A → result B) (b : B) :
  (a ← m; f a) = Return b → ∃ a, m = Return a ∧ f a = Return b.
Proof. destruct m as [a|e]; simpl; [eauto | done]. Qed.

(** ** Facts about the [str] methods *)

Module PyStrFacts.

Lemma allc_app p s1 s2 : allc p (s1 +:+ s2) = allc p s1 && allc p s2.
Proof.
  induction s1 as [|a s1 IH]; simpl; [done|]. by rewrite IH, andb_assoc.
Qed.

Lemma allc_impl (p q : ascii → bool) s :
  (∀ a, p a = true → q a = true) → allc p s = true → allc q s = true.
Proof.
  intros Hpq. induction s as [|a s IH]; simpl; [done|].
  intros [Ha Hs]%andb_true_iff. rewrite (Hpq a Ha). simpl. by apply IH.
Qed.

Lemma allc_lstrip_with sp p s : allc p s = true → allc p (lstrip_with sp s) = true.
Proof.
  induction s as [|a s IH]; simpl; [done|].
  intros H. destruct (sp a); [|done].
  apply IH. by apply andb_true_iff in H as [_ H].
Qed.

Lemma allc_rstrip_with sp p s : allc p s = true → allc p (rstrip_with sp s) = true.
Proof.
  induction s as [|a s IH]; simpl; [done|].
  intros [Ha Hs]%andb_true_iff. specialize (IH Hs).
  destruct (rstrip_with sp s) as [|b r].
  - destruct (sp a); simpl; [done|]. by rewrite Ha.
  - simpl in *. by rewrite Ha, IH.
Qed.

Lemma allc_strip p s : allc p s = true → allc p (strip s) = true.
Proof. intros H. by apply allc_rstrip_with, allc_lstrip_with. Qed.

Lemma allc_split_head p sep s : allc p s = true → allc p (split_head sep s) = true.
Proof.
  induction s as [|a s IH]; [done|].
  intros [Ha Hs]%andb_true_iff. cbn [split_head].
  destruct (startswith sep (String a s)); [done|]. simpl. by rewrite Ha, IH.
Qed.

Lemma allc_lower p s :
  allc (fun a => p (lower_char a)) s = true → allc p (lower s) = true.
Proof.
  induction s as [|a s IH]; simpl; [done|].
  intros [Ha Hs]%andb_true_iff. by rewrite Ha, IH.
Qed.

Lemma allc_replace p c r s :
  allc p r = true → allc (fun a => Ascii.eqb a c || p a) s = true →
  allc p (replace c r s) = true.
Proof.
  intros Hr. induction s as [|a s IH]; simpl; [done|].
  intros [Ha Hs]%andb_true_iff. destruct (Ascii.eqb a c); simpl in *.
  - rewrite allc_app, Hr. by apply IH.
  - by rewrite Ha, IH.
Qed.

Lemma contains_allc c s : contains c s = negb (allc (fun a => negb (Ascii.eqb a c)) s).
Proof.
  induction s as [|a s IH]; simpl; [done|].
  rewrite IH. by destruct (Ascii.eqb a c), (allc _ s).
Qed.

(** What leaves a string as it is. *)
Lemma lstrip_head_nonspace s : head_nonspace s = true → lstrip s = s.
Proof. destruct s as [|a s]; simpl; [done|]. unfold lstrip; simpl. by destruct (isspace a). Qed.

Lemma rstrip_with_no_space sp s :
  allc (fun a => negb (sp a)) s = true → rstrip_with sp s = s.
Proof.
  induction s as [|a s IH]; simpl; [done|].
  intros [Ha Hs]%andb_true_iff. rewrite (IH Hs).
  destruct s; [|done]. by destruct (sp a).
Qed.

Lemma split_head_absent c sep s :
  allc (fun a => negb (Ascii.eqb a c)) s = true → split_head (String c sep) s = s.
Proof.
  induction s as [|a s IH]; [done|].
  intros [Ha Hs]%andb_true_iff. cbn [split_head startswith].
  rewrite Ascii.eqb_sym. apply negb_true_iff in Ha. rewrite Ha. simpl. by rewrite IH.
Qed.

Lemma lower_fixed s :
  allc (fun a => Ascii.eqb (lower_char a) a) s = true → lower s = s.
Proof.
  induction s as [|a s IH]; simpl; [done|].
  intros [Ha%Ascii.eqb_eq Hs]%andb_true_iff. by rewrite Ha, IH.
Qed.

Lemma replace_absent c r s :
  allc (fun a => negb (Ascii.eqb a c)) s = true → replace c r s = s.
Proof.
  induction s as [|a s IH]; simpl; [done|].
  intros [Ha Hs]%andb_true_iff. apply negb_true_iff in Ha. by rewrite Ha, IH.
Qed.

(** The first character. *)
Lemma head_nonspace_lstrip s : head_nonspace (lstrip s) = true.
Proof.
  unfold lstrip. induction s as [|a s IH]; simpl; [done|].
  destruct (isspace a) eqn:Ha; [done|]. simpl. by rewrite Ha.
Qed.

Lemma rstrip_cons a s : isspace a = false → ∃ r, rstrip (String a s) = String a r.
Proof.
  intros Ha. unfold rstrip; simpl. destruct (rstrip_with isspace s); rewrite ?Ha; eauto.
Qed.

Lemma head_nonspace_rstrip s : head_nonspace s = true → head_nonspace (rstrip s) = true.
Proof.
  destruct s as [|a s]; [done|]. simpl. intros Ha%negb_true_iff.
  destruct (rstrip_cons a s Ha) as [r ->]. simpl. by rewrite Ha.
Qed.

Lemma head_nonspace_strip s : head_nonspace (strip s) = true.
Proof. apply head_nonspace_rstrip, head_nonspace_lstrip. Qed.

(** A string with a character that is no whitespace does not strip to
    the empty string. *)
Lemma lstrip_contains c s :
  contains c s = true → isspace c = false →
  ∃ a r, lstrip s = String a r ∧ isspace a = false.
Proof.
  intros Hc Hsp. unfold lstrip. induction s as [|a s IH]; simpl in *; [done|].
  destruct (isspace a) eqn:Ha; [|eauto].
  apply IH. destruct (Ascii.eqb a c) eqn:E; [|done].
  apply Ascii.eqb_eq in E. congruence.
Qed.

Lemma strip_contains c s :
  contains c s = true → isspace c = false →
  ∃ a r, strip s = String a r ∧ isspace a = false.
Proof.
  intros Hc Hsp. destruct (lstrip_contains c s Hc Hsp) as (a & r & E & Ha).
  unfold strip. rewrite E. destruct (rstrip_cons a r Ha) as [r' ->]. eauto.
Qed.

Lemma contains_split_head c sep s :
  contains c (split_head sep s) = true → contains c s = true.
Proof.
  induction s as [|a s IH]; [done|]. cbn [split_head].
  destruct (startswith sep (String a s)); [done|]. simpl.
  intros [->| H]%orb_true_iff; [done|]. rewrite (IH H). apply orb_true_r.
Qed.

Lemma startswith_split_head p sep s :
  startswith p (split_head sep s) = true → startswith p s = true.
Proof.
  revert p. induction s as [|a s IH]; intros p; [done|]. cbn [split_head].
  destruct (startswith sep (String a s)).
  - by destruct p.
  - destruct p as [|b p]; [done|]. simpl.
    intros [-> H]%andb_true_iff. simpl. by apply IH.
Qed.

(** The text before the first occurrence of [sep] has no occurrence of
    [sep], and what follows it in [s] is nothing or starts with [sep]. *)
Lemma occurs_split_head c sep s :
  occurs (String c sep) (split_head (String c sep) s) = false.
Proof.
  induction s as [|a s IH]; [done|]. cbn [split_head].
  destruct (startswith (String c sep) (String a s)) eqn:E; [done|].
  cbn [occurs]. rewrite IH, orb_false_r.
  destruct (startswith (String c sep) (String a (split_head (String c sep) s))) eqn:E'; [|done].
  rewrite <- E. simpl in *. apply andb_true_iff in E' as [-> E']. simpl.
  symmetry. by apply (startswith_split_head sep (String c sep)).
Qed.

Lemma split_head_rest sep s :
  ∃ rest, s = split_head sep s +:+ rest ∧ (rest = "" ∨ startswith sep rest = true).
Proof.
  induction s as [|a s IH]; [exists ""; split; [done|by left]|]. cbn [split_head].
  destruct (startswith sep (String a s)) eqn:E.
  - exists (String a s). split; [done|by right].
  - destruct IH as (rest & Hs & Hrest). exists rest. split; [|done].
    change (String a s = String a (split_head sep s +:+ rest)). by rewrite <- Hs.
Qed.

Lemma lower_char_idem a : lower_char (lower_char a) = lower_char a.
Proof. destruct a as [[] [] [] [] [] [] [] []]; reflexivity. Qed.

Lemma isspace_lower_char a : isspace (lower_char a) = isspace a.
Proof. destruct a as [[] [] [] [] [] [] [] []]; reflexivity. Qed.

End PyStrFacts.

Import PyStrFacts.

(** ** The consistency report: [interpret_fsck_output] *)

Module FsckFacts.
Import Fsck.

Lemma fsck_wf_init : wf init.
Proof. intros sec; discriminate. Qed.

Lemma fsck_step_total st line : wf st → ∃ st', step st line = Return st' ∧ wf st'.
Proof.
  intros Hwf. unfold step.
  destruct (contains ":" line); [|eauto].
  destruct (String.eqb (value_of line) "").
  - eexists; split; [done|]. intros sec [= <-]; simpl.
    rewrite lookup_insert_eq; eauto.
  - destruct (current_section st) as [sec|] eqn:Hcs.
    + destruct (Hwf sec Hcs) as [o Ho]. unfold setitem_in. rewrite Ho. simpl.
      eexists; split; [done|]. intros sec' [= <-]; simpl.
      rewrite lookup_insert_eq; eauto.
    + eexists; split; [done|]. intros sec; discriminate.
Qed.

Lemma fsck_run_total st lines : wf st → ∃ st', run step st lines = Return st' ∧ wf st'.
Proof.
  revert st. induction lines as [|l ls IH]; intros st Hwf; simpl; [eauto|].
  destruct (fsck_step_total st l Hwf) as (st1 & -> & Hwf1). simpl. by apply IH.
Qed.

Lemma fsck_step_agree k st1 st2 st1' st2' line :
  wf st1 → wf st2 → agree k st1 st2 →
  step st1 line = Return st1' → step st2 line = Return st2' →
  agree k st1' st2'.
Proof.
  intros Hwf1 Hwf2 [(sec & Hc1 & Hc2) Hk]. unfold step.
  destruct (contains ":" line).
  2:{ intros [= <-] [= <-]. split; eauto. }
  destruct (String.eqb (value_of line) "").
  - intros [= <-] [= <-]. split; simpl; [eauto|].
    destruct (decide (key_of line = k)) as [->|Hne].
    + by rewrite !lookup_insert_eq.
    + by rewrite !lookup_insert_ne.
  - rewrite Hc1, Hc2.
    destruct (Hwf1 sec Hc1) as [o1 Ho1]. destruct (Hwf2 sec Hc2) as [o2 Ho2].
    unfold setitem_in. rewrite Ho1, Ho2. simpl.
    intros [= <-] [= <-]. split; simpl; [eauto|].
    destruct (decide (sec = k)) as [->|Hne].
    + rewrite !lookup_insert_eq. rewrite Ho1, Ho2 in Hk. by injection Hk as ->.
    + by rewrite !lookup_insert_ne.
Qed.

Lemma fsck_run_agree k lines : ∀ st1 st2 st1' st2',
  wf st1 → wf st2 → agree k st1 st2 →
  run step st1 lines = Return st1' → run step st2 lines = Return st2' →
  agree k st1' st2'.
Proof.
  induction lines as [|l ls IH]; intros st1 st2 st1' st2' Hwf1 Hwf2 Hag; simpl.
  - by intros [= <-] [= <-].
  - destruct (fsck_step_total st1 l Hwf1) as (s1 & E1 & W1).
    destruct (fsck_step_total st2 l Hwf2) as (s2 & E2 & W2).
    rewrite E1, E2. simpl. intros R1 R2.
    apply (IH s1 s2); [done | done | | done | done].
    by apply (fsck_step_agree k st1 st2 s1 s2 l).
Qed.

Lemma fsck_step_header st line :
  is_header line = true →
  step st line = Return (State (<[key_of line := Object ∅]> (fsck_dict st)) (Some (key_of line))).
Proof.
  unfold is_header, step. intros [-> ->]%andb_true_iff. done.
Qed.

Lemma keys_from_mono lines l d : keys_from lines d → keys_from (lines ++ [l]) d.
Proof.
  intros H k Hk. destruct (H k Hk) as (line & Hin & Hc & ->).
  exists line. split; [|done]. apply elem_of_app; by left.
Qed.

Lemma fsck_step_keys lines st l st' :
  keys_from lines (fsck_dict st) → step st l = Return st' →
  keys_from (lines ++ [l]) (fsck_dict st').
Proof.
  intros Hk. unfold step.
  destruct (contains ":" l) eqn:Hc.
  2:{ intros [= <-]. by apply keys_from_mono. }
  assert (Hl : ∀ k, k = key_of l →
    ∃ line, line ∈ lines ++ [l] ∧ contains ":" line = true
            ∧ k = strip (split_head ":" line)).
  { intros k ->. exists l. split; [|done]. apply elem_of_app; right. by apply list_elem_of_singleton. }
  pose proof (keys_from_mono lines l _ Hk) as Hold.
  destruct (String.eqb (value_of l) "").
  - intros [= <-]; simpl. intros k [Htop|(sec & o & Hsec & Ho)].
    + destruct (decide (key_of l = k)) as [<-|Hne]; [by apply Hl|].
      rewrite lookup_insert_ne in Htop by done. apply Hold. by left.
    + destruct (decide (key_of l = sec)) as [<-|Hne].
      * rewrite lookup_insert_eq in Hsec. injection Hsec as <-.
        rewrite lookup_empty in Ho. by destruct Ho.
      * rewrite lookup_insert_ne in Hsec by done. apply Hold. right; eauto.
  - destruct (current_section st) as [sec|].
    + unfold setitem_in. destruct (fsck_dict st !! sec) as [[s|o|ol]|] eqn:Hd; simpl; try done.
      intros [= <-]; simpl. intros k [Htop|(sec' & o' & Hsec & Ho)].
      * destruct (decide (sec = k)) as [<-|Hne].
        -- apply Hold. left. by rewrite Hd.
        -- rewrite lookup_insert_ne in Htop by done. apply Hold. by left.
      * destruct (decide (sec = sec')) as [<-|Hne].
        -- rewrite lookup_insert_eq in Hsec. injection Hsec as <-.
           destruct (decide (key_of l = k)) as [<-|Hne]; [by apply Hl|].
           rewrite lookup_insert_ne in Ho by done. apply Hold. right; eauto.
        -- rewrite lookup_insert_ne in Hsec by done. apply Hold. right; eauto.
    + intros [= <-]; simpl. intros k [Htop|(sec' & o' & Hsec & Ho)].
      * destruct (decide (key_of l = k)) as [<-|Hne]; [by apply Hl|].
        rewrite lookup_insert_ne in Htop by done. apply Hold. by left.
      * destruct (decide (key_of l = sec')) as [<-|Hne].
        -- by rewrite lookup_insert_eq in Hsec.
        -- rewrite lookup_insert_ne in Hsec by done. apply Hold. right; eauto.
Qed.

Lemma fsck_run_keys ls : ∀ lines st st',
  keys_from lines (fsck_dict st) → run step st ls = Return st' →
  keys_from (lines ++ ls) (fsck_dict st').
Proof.
  induction ls as [|l ls IH]; intros lines st st' Hk; simpl.
  - intros [= <-]. by rewrite app_nil_r.
  - intros (st1 & E1 & R)%bind_Return_inv.
    replace (lines ++ l :: ls) with ((lines ++ [l]) ++ ls) by by rewrite <- app_assoc.
    eapply IH; [|done]. by eapply fsck_step_keys.
Qed.

(** C7, as the code has it: the key under which a line of the
    consistency report is stored is the text left of its first colon
    with the surrounding whitespace removed, and nothing else changed.
    Every line with a colon is stored under that key (a header as an
    empty section, a pair inside the open section or at the top level),
    and every key of the returned report, at the top level or inside a
    section, is that text for some line of the input. *)
Theorem fsck_keys_are_stripped_raw_keys :
  (∀ st line st',
     step st line = Return st' → contains ":" line = true →
     let k := strip (split_head ":" line) in
     let v := strip (after_first ":" line) in
     if String.eqb v "" then fsck_dict st' !! k = Some (Object ∅)
     else match current_section st with
          | Some sec => ∃ o, fsck_dict st' !! sec = Some (Object o) ∧ o !! k = Some v
          | None => fsck_dict st' !! k = Some (Leaf v)
          end)
  ∧ (∀ text r k,
       interpret_fsck_output text = Return r → key_in r k →
       ∃ line, line ∈ splitlines text ∧ contains ":" line = true
               ∧ k = strip (split_head ":" line)).
Proof.
  split.
  - intros st line st'. unfold step. intros Hs Hc. rewrite Hc in Hs. revert Hs.
    fold (key_of line) (value_of line). cbv zeta.
    destruct (String.eqb (value_of line) "").
    + intros [= <-]; simpl. by rewrite lookup_insert_eq.
    + destruct (current_section st) as [sec|].
      * unfold setitem_in. destruct (fsck_dict st !! sec) as [[s|o|ol]|]; simpl; try done.
        intros [= <-]; simpl. exists (<[key_of line := value_of line]> o).
        by rewrite !lookup_insert_eq.
      * intros [= <-]; simpl. by rewrite lookup_insert_eq.
  - intros text r k. unfold interpret_fsck_output, interpret_fsck_lines.
    intros (st & R & [= <-])%bind_Return_inv Hk.
    apply (fsck_run_keys (splitlines text) [] init st); [|done|done].
    intros k' [Htop|(sec & o & Hsec & _)]; simpl in *.
    + rewrite lookup_empty in Htop. by destruct Htop.
    + by rewrite lookup_empty in Hsec.
Qed.

(** C10: a header line that repeats the key of an earlier header resets
    the section to a fresh empty dictionary, so what the returned report
    holds under that key is what the lines from the second header on
    produce by themselves: the pairs collected under the first header are
    gone unless they come again after the second. *)
Theorem fsck_repeated_header_resets text pre h mid h' post :
  splitlines text = pre ++ h :: mid ++ h' :: post →
  is_header h = true → is_header h' = true → key_of h' = key_of h →
  (∃ st, run step init (pre ++ h :: mid ++ [h']) = Return st
         ∧ fsck_dict st !! key_of h = Some (Object ∅))
  ∧ ∃ r r', interpret_fsck_output text = Return r
            ∧ interpret_fsck_lines (h' :: post) = Return r'
            ∧ r !! key_of h = r' !! key_of h.
Proof.
  intros Htext Hh Hh' Hkey.
  destruct (fsck_run_total init (pre ++ h :: mid) fsck_wf_init) as (sa & Ra & Wa).
  set (k := key_of h) in *.
  set (A := State (<[k := Object ∅]> (fsck_dict sa)) (Some k)).
  set (B := State (<[k := Object ∅]> ∅) (Some k)).
  assert (WA : wf A). { intros sec [= <-]; simpl. rewrite lookup_insert_eq; eauto. }
  assert (WB : wf B). { intros sec [= <-]; simpl. rewrite lookup_insert_eq; eauto. }
  assert (RA : run step init (pre ++ h :: mid ++ [h']) = Return A).
  { replace (pre ++ h :: mid ++ [h']) with ((pre ++ h :: mid) ++ [h'])
      by (rewrite <- app_assoc; done).
    rewrite (run_app_Return _ _ _ _ _ Ra). simpl.
    rewrite (fsck_step_header _ _ Hh'), Hkey. done. }
  split.
  { exists A. split; [done|]. simpl. by rewrite lookup_insert_eq. }
  destruct (fsck_run_total A post WA) as (sA & RsA & _).
  destruct (fsck_run_total B post WB) as (sB & RsB & _).
  exists (fsck_dict sA), (fsck_dict sB).
  assert (Hag : agree k sA sB).
  { apply (fsck_run_agree k post A B sA sB); [done..| |done|done].
    split; [exists k; done|]. simpl. by rewrite !lookup_insert_eq. }
  split; [|split].
  - unfold interpret_fsck_output, interpret_fsck_lines. rewrite Htext.
    replace (pre ++ h :: mid ++ h' :: post) with ((pre ++ h :: mid ++ [h']) ++ post).
    2:{ rewrite <- !app_assoc. simpl. rewrite <- app_assoc. done. }
    rewrite (run_app_Return _ _ _ _ _ RA), RsA. done.
  - unfold interpret_fsck_lines. simpl.
    rewrite (fsck_step_header _ _ Hh'), Hkey. simpl. fold k B. rewrite RsB. done.
  - apply Hag.
Qed.

End FsckFacts.

(** ** The capacity report: key normalization *)

Module NormalizeFacts.
Import Dfsadmin.

Lemma normalize_canon k : normalize k = canon (split_head " (" (strip k)).
Proof. done. Qed.

Lemma allc_canon (p : ascii → bool) t :
  allc p "_pct" = true →
  allc (fun a => Ascii.eqb (lower_char a) " " || (Ascii.eqb (lower_char a) "%" || p (lower_char a))) t = true →
  allc p (canon t) = true.
Proof.
  intros Hp Ht. unfold canon.
  apply allc_replace; [done|].
  apply allc_replace.
  { simpl in *. by apply andb_true_iff in Hp as [-> _]. }
  by apply allc_lower.
Qed.

Lemma allc_all (p : ascii → bool) s : (∀ a, p a = true) → allc p s = true.
Proof. intros Hp. induction s as [|a s IH]; simpl; [done|]. by rewrite Hp, IH. Qed.

Lemma canon_settled t : allc settled (canon t) = true.
Proof.
  apply allc_canon; [done|]. apply allc_all.
  intros a. destruct a as [[] [] [] [] [] [] [] []]; reflexivity.
Qed.

Lemma canon_visible t :
  allc space_or_visible t = true → allc (fun a => negb (isspace a)) (canon t) = true.
Proof.
  intros Ht. apply allc_canon; [done|].
  revert Ht. apply allc_impl.
  intros a. destruct a as [[] [] [] [] [] [] [] []]; vm_compute; done.
Qed.

Lemma head_nonspace_split_head sep s :
  head_nonspace s = true → head_nonspace (split_head sep s) = true.
Proof.
  destruct s as [|a s]; [done|]. cbn [split_head].
  by destruct (startswith sep (String a s)).
Qed.

Lemma head_nonspace_canon t : head_nonspace t = true → head_nonspace (canon t) = true.
Proof.
  destruct t as [|a t]; [done|]. simpl. intros Ha%negb_true_iff.
  unfold canon. simpl.
  assert (Hl : isspace (lower_char a) = false) by by rewrite isspace_lower_char.
  destruct (Ascii.eqb (lower_char a) " ") eqn:E1.
  { apply Ascii.eqb_eq in E1. rewrite E1 in Hl. done. }
  simpl. destruct (Ascii.eqb (lower_char a) "%") eqn:E2; simpl; [done|].
  by rewrite Hl.
Qed.

Lemma normalize_settled k : allc settled (normalize k) = true.
Proof. rewrite normalize_canon. apply canon_settled. Qed.

Lemma head_nonspace_normalize k : head_nonspace (normalize k) = true.
Proof.
  rewrite normalize_canon.
  apply head_nonspace_canon, head_nonspace_split_head, head_nonspace_strip.
Qed.

(** Normalizing a normalized key removes its trailing whitespace and
    nothing else. *)
Lemma normalize_normalize k : normalize (normalize k) = rstrip (normalize k).
Proof.
  set (u := normalize k).
  assert (Hw : allc settled (rstrip u) = true)
    by apply allc_rstrip_with, normalize_settled.
  unfold normalize at 1. unfold strip.
  rewrite (lstrip_head_nonspace u) by apply head_nonspace_normalize.
  rewrite (split_head_absent " " "(").
  2:{ revert Hw. apply allc_impl. unfold settled. intros a.
      by destruct (Ascii.eqb a " "). }
  rewrite lower_fixed.
  2:{ revert Hw. apply allc_impl. unfold settled. intros a.
      by intros [_ ?]%andb_true_iff. }
  rewrite (replace_absent " ").
  2:{ revert Hw. apply allc_impl. unfold settled. intros a.
      by destruct (Ascii.eqb a " "). }
  rewrite (replace_absent "%"); [done|].
  revert Hw. apply allc_impl. unfold settled. intros a.
  destruct (Ascii.eqb a "%"); [|done]. by rewrite andb_false_r.
Qed.

(** C8, as the code has it: normalizing twice is normalizing once for
    every raw key whose only whitespace characters are spaces; for any
    raw key the second normalization removes the whitespace that the
    first one left at the end, and changes nothing else. *)
Theorem normalize_idempotent_on_spaces :
  (∀ k, allc space_or_visible k = true → normalize (normalize k) = normalize k)
  ∧ (∀ k, normalize (normalize k) = rstrip (normalize k)).
Proof.
  split; [|apply normalize_normalize].
  intros k Hk. rewrite normalize_normalize. unfold rstrip.
  apply rstrip_with_no_space. rewrite normalize_canon.
  by apply canon_visible, allc_split_head, allc_strip.
Qed.

Lemma normalize_idempotent_on_spaces_witness :
  normalize (normalize " DFS Used% (of total) ") = normalize " DFS Used% (of total) ".
Proof.
  apply (proj1 normalize_idempotent_on_spaces " DFS Used% (of total) ").
  reflexivity.
Defined.

(** The key [a<TAB> (b)]: the tab that the cut leaves at the end is
    removed by the second normalization only. *)
Lemma normalize_not_idempotent :
  let k := String "a" (String "009" " (b)") in
  normalize k = String "a" (String "009" "") ∧ normalize (normalize k) = "a"
  ∧ normalize (normalize k) ≠ normalize k.
Proof. vm_compute. repeat split. discriminate. Qed.

End NormalizeFacts.

(** ** The capacity report: [interpret_dfsadmin_report] *)

Module DfsadminFacts.
Import Dfsadmin NormalizeFacts.

(** *** One line *)

Lemma step_header_line st l : is_header l = true → step st l = header st (strip l).
Proof. unfold is_header, step. by intros [-> ->]%andb_true_iff. Qed.

Lemma step_key_value_line st l :
  is_key_value l = true →
  step st l = key_value st (key_of (strip l)) (value_of (strip l)).
Proof.
  unfold is_key_value, step. intros [-> H]%andb_true_iff.
  apply negb_true_iff in H. by rewrite H.
Qed.

Lemma step_blank_line st l : is_blank l = true → step st l = Return (blank st).
Proof. unfold is_blank, step. intros H. apply String.eqb_eq in H. by rewrite H. Qed.

Lemma step_other_line st l :
  is_header l = false → is_key_value l = false → is_blank l = false →
  step st l = Return st.
Proof.
  unfold is_header, is_key_value, is_blank, step.
  destruct (contains ":" (strip l)); simpl.
  - by destruct (String.eqb (value_of (strip l)) "").
  - by intros _ _ ->.
Qed.

(** The name of an array section is never the empty string. *)
Lemma canon_cons a t : ∃ b r, canon (String a t) = String b r.
Proof.
  unfold canon. simpl. destruct (Ascii.eqb (lower_char a) " "); simpl.
  - eauto.
  - destruct (Ascii.eqb (lower_char a) "%"); simpl; eauto.
Qed.

Lemma key_of_array_header line :
  contains "(" (split_head ":" line) = true → ∃ a r, key_of line = String a r.
Proof.
  intros Hc. unfold key_of. rewrite normalize_canon.
  destruct (strip_contains "(" _ Hc eq_refl) as (a & r & -> & Ha).
  cbn [split_head startswith].
  destruct (Ascii.eqb " " a) eqn:E.
  { apply Ascii.eqb_eq in E. subst a. done. }
  simpl. apply canon_cons.
Qed.

Lemma count_of_array line n :
  contains "(" (split_head ":" line) = true → int (count_literal line) = Some n →
  count_of line = Return n.
Proof. unfold count_of. by intros -> ->. Qed.

Lemma header_array st line n :
  contains "(" (split_head ":" line) = true → int (count_literal line) = Some n →
  header st line
  = Return (State (flush_at_header st) (Some (key_of line)) [] ∅ n (0 <? n)%Z true).
Proof.
  intros Hc Hn. unfold header. rewrite (count_of_array _ _ Hc Hn). simpl.
  by rewrite (contains_split_head _ _ _ Hc).
Qed.

(** *** Inside an array section *)

Section array_section.
Context (d : gmap string Value) (name : string).

Lemma key_value_in_entry L o rem k v :
  (0 < rem)%Z →
  key_value (in_array d name L o rem true) k v
  = Return (in_array d name L (<[k := v]> o) rem true).
Proof.
  intros Hrem. unfold key_value, in_array; simpl.
  by rewrite (proj2 (Z.ltb_lt 0 rem) Hrem).
Qed.

Lemma blank_no_entry L rem io :
  blank (in_array d name L ∅ rem io) = in_array d name L ∅ rem io.
Proof. unfold blank, in_array; simpl. by destruct io. Qed.

Lemma blank_ends_entry L o rem :
  o ≠ ∅ →
  blank (in_array d name L o rem true) = in_array d name (L ++ [o]) ∅ (rem - 1) true.
Proof.
  intros Ho. unfold blank, in_array; simpl. by rewrite bool_decide_eq_false_2.
Qed.

Lemma run_pairs L rem kvs : ∀ o,
  (0 < rem)%Z → forallb is_key_value kvs = true →
  ∃ o', run step (in_array d name L o rem true) kvs
        = Return (in_array d name L o' rem true)
        ∧ (o ≠ ∅ ∨ nonempty kvs = true → o' ≠ ∅).
Proof.
  induction kvs as [|l kvs IH]; intros o Hrem Hkvs; simpl.
  - exists o. split; [done|]. by intros [?|?].
  - simpl in Hkvs. apply andb_true_iff in Hkvs as [Hl Hkvs].
    rewrite (step_key_value_line _ _ Hl), (key_value_in_entry _ _ _ _ _ Hrem). simpl.
    destruct (IH (<[key_of (strip l) := value_of (strip l)]> o) Hrem Hkvs) as (o' & -> & Ho').
    exists o'. split; [done|]. intros _. apply Ho'. left. apply insert_non_empty.
Qed.

Lemma run_blanks L rem io bs :
  forallb is_blank bs = true →
  run step (in_array d name L ∅ rem io) bs = Return (in_array d name L ∅ rem io).
Proof.
  induction bs as [|b bs IH]; simpl; [done|].
  intros [Hb Hbs]%andb_true_iff.
  rewrite (step_blank_line _ _ Hb), blank_no_entry. simpl. by apply IH.
Qed.

Lemma run_entry L rem e :
  (0 < rem)%Z → entry_ok e = true →
  ∃ o, run step (in_array d name L ∅ rem true) (entry_lines e)
       = Return (in_array d name (L ++ [o]) ∅ (rem - 1) true).
Proof.
  intros Hrem. unfold entry_ok, entry_lines.
  intros [[[Hne Hkvs]%andb_true_iff Hnb]%andb_true_iff Hbs]%andb_true_iff.
  destruct (run_pairs L rem (entry_pairs e) ∅ Hrem Hkvs) as (o & Ho & Hno).
  exists o. rewrite (run_app_Return _ _ _ _ _ Ho).
  destruct (entry_blanks e) as [|b bs]; [done|]. simpl in *.
  apply andb_true_iff in Hbs as [Hb Hbs].
  rewrite (step_blank_line _ _ Hb), blank_ends_entry by auto. simpl.
  by apply run_blanks.
Qed.

Lemma run_entries es : ∀ L rem,
  (Z.of_nat (length es) ≤ rem)%Z → forallb entry_ok es = true →
  ∃ L', length L' = length es
        ∧ run step (in_array d name L ∅ rem true) (flat_map entry_lines es)
          = Return (in_array d name (L ++ L') ∅ (rem - Z.of_nat (length es)) true).
Proof.
  induction es as [|e es IH]; intros L rem Hlen Hes.
  - exists []. simpl. by rewrite app_nil_r, Z.sub_0_r.
  - simpl in Hes. apply andb_true_iff in Hes as [He Hes].
    simpl length in *.
    destruct (run_entry L rem e ltac:(lia) He) as (o & Ho).
    destruct (IH (L ++ [o]) (rem - 1)%Z ltac:(lia) Hes) as (L' & HL' & Hrun).
    exists (o :: L'). split; [simpl; lia|].
    simpl flat_map. rewrite (run_app_Return _ _ _ _ _ Ho), Hrun.
    f_equal. rewrite <- app_assoc. simpl. f_equal. lia.
Qed.

Lemma finish_in_array L o rem io a r :
  name = String a r →
  finish (in_array d name L o rem io)
  = <[name := List (if bool_decide (o = ∅) then L else L ++ [o])]> d.
Proof. intros ->. done. Qed.

Lemma flush_in_array L o rem io a r :
  name = String a r →
  flush_at_header (in_array d name L o rem io) = <[name := List L]> d.
Proof. intros ->. done. Qed.

End array_section.

(** *** After the last counted entry, and in a section of count zero *)

(** Guard of line 216 false: a pair goes to the report, under the name
    of the open section. *)
Lemma key_value_spent d name L o rem io k v a r st' :
  name = String a r → io && (0 <? rem)%Z = false →
  key_value (in_array d name L o rem io) k v = Return st' →
  ∃ o0, st' = in_array (<[name := Object (<[k := v]> o0)]> d) name L o rem io
        ∧ (d !! name = Some (Object o0) ∨ d !! name = None ∧ o0 = ∅).
Proof.
  intros -> Hg. unfold key_value, in_array; simpl. rewrite Hg.
  unfold setitem_in. destruct (d !! String a r) as [[s|o0|ol]|] eqn:Hd; simpl.
  - by rewrite Hd.
  - rewrite Hd. simpl. intros [= <-]. exists o0. split; [done|]. by left.
  - by rewrite Hd.
  - rewrite lookup_insert_eq. simpl. intros [= <-]. exists ∅.
    split; [|by right]. by rewrite insert_insert_eq.
Qed.

Lemma key_value_spent_total d name L o rem io k v a r :
  name = String a r → io && (0 <? rem)%Z = false →
  (∀ x, d !! name = Some x → ∃ o0, x = Object o0) →
  ∃ st', key_value (in_array d name L o rem io) k v = Return st'.
Proof.
  intros -> Hg Hd. unfold key_value, in_array; simpl. rewrite Hg.
  unfold setitem_in. destruct (d !! String a r) as [x|] eqn:E.
  - destruct (Hd x eq_refl) as [o0 ->]. rewrite E. simpl. eauto.
  - rewrite lookup_insert_eq. simpl. eauto.
Qed.

Lemma run_spent name L rem io a r body : ∀ d st,
  name = String a r → io && (0 <? rem)%Z = false →
  forallb (fun l => negb (is_header l)) body = true →
  run step (in_array d name L ∅ rem io) body = Return st →
  ∃ d', st = in_array d' name L ∅ rem io
        ∧ (∀ l, l ∈ body → is_key_value l = true → holds d' name (key_of (strip l)))
        ∧ (∀ k, holds d name k → holds d' name k)
        ∧ (∀ k, k ≠ name → d' !! k = d !! k)
        ∧ (nonempty body = false → d' = d).
Proof.
  induction body as [|l body IH]; intros d st Hname Hg Hbody; simpl.
  - intros [= <-]. exists d. split; [done|]. split; [|done].
    intros l Hl. by apply elem_of_nil in Hl.
  - simpl in Hbody. apply andb_true_iff in Hbody as [Hl%negb_true_iff Hbody].
    intros (st1 & Hstep & Hrun)%bind_Return_inv.
    destruct (is_key_value l) eqn:Hkv.
    + rewrite (step_key_value_line _ _ Hkv) in Hstep.
      destruct (key_value_spent _ _ _ _ _ _ _ _ _ _ _ Hname Hg Hstep) as (o0 & -> & Ho0).
      destruct (IH _ _ Hname Hg Hbody Hrun) as (d' & -> & Hin & Hkeep & Hother & _).
      exists d'. split; [done|].
      assert (Hnow : ∀ k, k = key_of (strip l) ∨ holds d name k →
                holds (<[name := Object (<[key_of (strip l) := value_of (strip l)]> o0)]> d) name k).
      { intros k Hk. eexists. rewrite lookup_insert_eq. split; [done|].
        destruct Hk as [->|(o & Ho & Hk)].
        - rewrite lookup_insert_eq. eauto.
        - destruct Ho0 as [Ho0|[Ho0 _]]; rewrite Ho0 in Ho; [|done].
          injection Ho as <-.
          destruct (decide (key_of (strip l) = k)) as [->|Hne].
          + rewrite lookup_insert_eq. eauto.
          + by rewrite lookup_insert_ne. }
      split; [|split; [|split]].
      * intros l' [->|Hl']%elem_of_cons Hkv'; [|by apply Hin].
        apply Hkeep, Hnow. by left.
      * intros k Hk. apply Hkeep, Hnow. by right.
      * intros k Hk. rewrite (Hother k Hk). by rewrite lookup_insert_ne.
      * done.
    + assert (Hst1 : st1 = in_array d name L ∅ rem io).
      { destruct (is_blank l) eqn:Hb.
        - rewrite (step_blank_line _ _ Hb), blank_no_entry in Hstep. by injection Hstep.
        - rewrite (step_other_line _ _ Hl Hkv Hb) in Hstep. by injection Hstep. }
      subst st1.
      destruct (IH _ _ Hname Hg Hbody Hrun) as (d' & -> & Hin & Hkeep & Hother & _).
      exists d'. split; [done|]. split; [|split; [|split]]; [|done..].
      intros l' [->|Hl']%elem_of_cons Hkv'; [congruence|by apply Hin].
Qed.

Lemma is_key_value_not_header l : is_key_value l = true → is_header l = false.
Proof.
  unfold is_key_value, is_header. destruct (contains ":" (strip l)); [|done].
  simpl. by intros ->%negb_true_iff.
Qed.

Lemma run_spent_total name L rem io a r body : ∀ d,
  name = String a r → io && (0 <? rem)%Z = false →
  forallb (fun l => negb (is_header l)) body = true →
  (∀ x, d !! name = Some x → ∃ o0, x = Object o0) →
  ∃ st, run step (in_array d name L ∅ rem io) body = Return st.
Proof.
  induction body as [|l body IH]; intros d Hname Hg Hbody Hd; simpl; [eauto|].
  simpl in Hbody. apply andb_true_iff in Hbody as [Hl%negb_true_iff Hbody].
  destruct (is_key_value l) eqn:Hkv.
  - rewrite (step_key_value_line _ _ Hkv).
    destruct (key_value_spent_total d name L ∅ rem io (key_of (strip l))
                (value_of (strip l)) a r Hname Hg Hd) as (st' & Hst').
    destruct (key_value_spent _ _ _ _ _ _ _ _ _ _ _ Hname Hg Hst') as (o0 & -> & _).
    rewrite Hst'. simpl. apply IH; [done..|].
    intros x. rewrite lookup_insert_eq. intros [= <-]. eauto.
  - destruct (is_blank l) eqn:Hb.
    + rewrite (step_blank_line _ _ Hb), blank_no_entry. simpl. by apply IH.
    + rewrite (step_other_line _ _ Hl Hkv Hb). simpl. by apply IH.
Qed.

(** *** What a line leaves alone *)

Lemma step_frame name st l st' :
  step st l = Return st' → current_section st ≠ Some name →
  not_named name l = true →
  dfsadmin_dict st' !! name = dfsadmin_dict st !! name
  ∧ current_section st' ≠ Some name.
Proof.
  intros Hstep Hcs Hl. unfold not_named in Hl. revert Hstep. unfold step.
  destruct (contains ":" (strip l)); simpl in Hl.
  - apply negb_true_iff, String.eqb_neq in Hl.
    destruct (String.eqb (value_of (strip l)) "").
    + unfold header. intros (n & _ & [= <-])%bind_Return_inv; simpl.
      split; [|congruence]. unfold flush_at_header.
      destruct (current_section st) as [sec|]; [|done].
      destruct (truthy (Some sec)); [|done].
      destruct (is_array st); rewrite lookup_insert_ne; congruence.
    + unfold key_value.
      destruct (in_object_section st && (0 <? objects_remaining st)%Z).
      { by intros [= <-]. }
      destruct (current_section st) as [sec|] eqn:Hsec.
      * destruct (truthy (Some sec)).
        -- intros (d' & Hset & [= <-])%bind_Return_inv; simpl. split; [|done].
           revert Hset. unfold setitem_in.
           destruct (dfsadmin_dict st !! sec) as [x|] eqn:Hd.
           ++ rewrite Hd. destruct x; try done. intros [= <-].
              rewrite lookup_insert_ne; congruence.
           ++ rewrite lookup_insert_eq. intros [= <-].
              rewrite !lookup_insert_ne; congruence.
        -- intros [= <-]; simpl. split; [|done]. by rewrite lookup_insert_ne.
      * intros [= <-]; simpl. split; [|done]. by rewrite lookup_insert_ne.
  - destruct (String.eqb (strip l) ""); intros [= <-]; [|done].
    unfold blank. destruct (current_section st) as [sec|] eqn:Hsec; [|by rewrite Hsec].
    destruct (in_object_section st); [|by rewrite Hsec].
    destruct (is_array st); simpl.
    + destruct (bool_decide (current_object st = ∅)); simpl; split; congruence.
    + split; [|done]. rewrite lookup_insert_ne; congruence.
Qed.

Lemma run_frame name ls : ∀ st st',
  run step st ls = Return st' → current_section st ≠ Some name →
  forallb (not_named name) ls = true →
  dfsadmin_dict st' !! name = dfsadmin_dict st !! name
  ∧ current_section st' ≠ Some name.
Proof.
  induction ls as [|l ls IH]; intros st st'; simpl.
  - by intros [= <-].
  - intros (st1 & Hstep & Hrun)%bind_Return_inv Hcs [Hl Hls]%andb_true_iff.
    destruct (step_frame name st l st1 Hstep Hcs Hl) as [E1 Hcs1].
    destruct (IH st1 st' Hrun Hcs1 Hls) as [E2 Hcs2]. split; [congruence|done].
Qed.

Lemma finish_frame name st :
  current_section st ≠ Some name → finish st !! name = dfsadmin_dict st !! name.
Proof.
  intros Hcs. unfold finish. destruct (current_section st) as [sec|]; [|done].
  destruct (truthy (Some sec)); [|done].
  destruct (is_array st); rewrite lookup_insert_ne; congruence.
Qed.

(** *** The claims about sections *)

(** The state at the end of an array section with no more entries than
    its header declares. *)
Lemma run_array_section pre st0 h blanks0 es last (n : nat) :
  run step init pre = Return st0 →
  is_array_header h = true →
  int (count_literal (strip h)) = Some (Z.of_nat n) →
  forallb is_blank blanks0 = true →
  forallb entry_ok es = true →
  forallb is_key_value last = true →
  (entry_count es last ≤ n)%nat →
  ∃ L o,
    run step init (pre ++ h :: blanks0 ++ flat_map entry_lines es ++ last)
    = Return (in_array (flush_at_header st0) (key_of (strip h)) L o
                (Z.of_nat n - Z.of_nat (length es)) (0 <? Z.of_nat n)%Z)
    ∧ length L = length es
    ∧ (if nonempty last then o ≠ ∅ else o = ∅).
Proof.
  intros Hpre [Hh Hc]%andb_true_iff Hn Hb0 Hes Hlast Hcount.
  set (name := key_of (strip h)). set (D := flush_at_header st0).
  rewrite (run_app_Return _ _ _ _ _ Hpre). simpl.
  rewrite (step_header_line _ _ Hh), (header_array _ _ _ Hc Hn). simpl.
  fold name D (in_array D name [] ∅ (Z.of_nat n) (0 <? Z.of_nat n)%Z).
  rewrite (run_app_Return _ _ _ _ _ (run_blanks D name [] _ _ blanks0 Hb0)).
  unfold entry_count in Hcount.
  destruct (decide (n = 0)) as [->|Hpos].
  - (* no entry is declared, and none is there *)
    destruct es; [|simpl in Hcount; lia].
    destruct last; [|simpl in Hcount; lia].
    exists [], ∅. done.
  - replace (0 <? Z.of_nat n)%Z with true by (symmetry; apply Z.ltb_lt; lia).
    destruct (run_entries D name es [] (Z.of_nat n) ltac:(lia) Hes) as (L' & HL' & Hrun).
    rewrite (run_app_Return _ _ _ _ _ Hrun). simpl app.
    destruct last as [|l0 last].
    + exists L', ∅. done.
    + destruct (run_pairs D name L' (Z.of_nat n - Z.of_nat (length es))%Z
                  (l0 :: last) ∅ ltac:(simpl in Hcount; lia) Hlast) as (o & -> & Ho).
      exists L', o. split; [done|]. split; [done|]. simpl. apply Ho. by right.
Qed.

(** C1, as the code has it: an array section whose header declares the
    count [n], followed by entries that blank lines end, the last of
    which may lack its blank line when the input stops there, is
    returned as a list with one dictionary per entry as long as there
    are no more than [n] of them, the lines before the header are read
    without exception, the section stops at the end of the input or at
    the next header, and no line after the section has the name of the
    section as its key: [n] entries give a list of length [n], and
    [k < n] entries give a list of length [k], in any report that is
    returned; when the input stops with the section the call returns,
    without any exception.  A later line with the name of the section
    as its key replaces the list. *)
Theorem array_section_length text pre st0 h blanks0 es last post (n : nat) :
  splitlines text = pre ++ h :: blanks0 ++ flat_map entry_lines es ++ last ++ post →
  run step init pre = Return st0 →
  is_array_header h = true →
  int (count_literal (strip h)) = Some (Z.of_nat n) →
  forallb is_blank blanks0 = true →
  forallb entry_ok es = true →
  forallb is_key_value last = true →
  (entry_count es last ≤ n)%nat →
  section_end last post = true →
  forallb (not_named (key_of (strip h))) post = true →
  (post = [] → ∃ r, interpret_dfsadmin_report text = Return r)
  ∧ (∀ r, interpret_dfsadmin_report text = Return r →
          ∃ l, r !! key_of (strip h) = Some (List l)
               ∧ length l = entry_count es last).
Proof.
  intros Htext Hpre Hh Hn Hb0 Hes Hlast Hcount Hend Hnamed.
  destruct (run_array_section pre st0 h blanks0 es last n Hpre Hh Hn Hb0 Hes Hlast Hcount)
    as (L & o & Hrun & HL & Ho).
  apply andb_true_iff in Hh as [Hh Hc].
  set (name := key_of (strip h)) in *.
  destruct (key_of_array_header _ Hc) as (a & s & Hname). fold name in Hname.
  unfold interpret_dfsadmin_report, interpret_dfsadmin_lines. rewrite Htext.
  replace (pre ++ h :: blanks0 ++ flat_map entry_lines es ++ last ++ post)
    with ((pre ++ h :: blanks0 ++ flat_map entry_lines es ++ last) ++ post).
  2:{ rewrite <- !app_assoc. simpl. by rewrite <- !app_assoc. }
  rewrite (run_app_Return _ _ _ _ _ Hrun).
  split.
  { intros ->. simpl. eauto. }
  intros r (stf & Hpost & [= <-])%bind_Return_inv.
  unfold entry_count.
  destruct post as [|h2 post].
  - simpl in Hpost. injection Hpost as <-.
    rewrite (finish_in_array _ _ _ _ _ _ a s Hname), lookup_insert_eq.
    eexists. split; [done|].
    destruct (nonempty last).
    + rewrite bool_decide_eq_false_2 by done. rewrite length_app. simpl. lia.
    + rewrite bool_decide_eq_true_2 by done. lia.
  - simpl in Hend, Hnamed, Hpost.
    apply andb_true_iff in Hend as [Hh2 Hl%negb_true_iff].
    apply andb_true_iff in Hnamed as [Hn2 Hnamed].
    rewrite Hl in Ho |- *. subst o.
    apply bind_Return_inv in Hpost as (st3 & Hstep & Hpost).
    rewrite (step_header_line _ _ Hh2) in Hstep.
    assert (Hne : key_of (strip h2) ≠ name).
    { unfold not_named in Hn2. unfold is_header in Hh2.
      apply andb_true_iff in Hh2 as [Hcol _]. rewrite Hcol in Hn2. simpl in Hn2.
      by apply negb_true_iff, String.eqb_neq in Hn2. }
    unfold header in Hstep. apply bind_Return_inv in Hstep as (n2 & _ & [= <-]).
    destruct (run_frame name post _ _ Hpost) as [E Hcs]; [simpl; congruence|done|].
    rewrite (finish_frame name stf Hcs), E. simpl.
    rewrite (flush_in_array _ _ _ _ _ _ a s Hname), lookup_insert_eq.
    eexists. split; [done|]. lia.
Qed.

(** C9, as the code has it: a section whose header declares the count
    zero ends up as the empty list in any report that is returned, as
    long as no line after the section has the name of the section as its
    key.  The pairs that follow its header, up to the next header or the
    end of the input, are written into a dictionary under the name of
    the section first, and the list replaces that dictionary when the
    section is flushed.  A later line with the name of the section as
    its key replaces the list. *)
Theorem count_zero_section_is_empty_list text pre h body post r :
  splitlines text = pre ++ h :: body ++ post →
  is_array_header h = true →
  int (count_literal (strip h)) = Some 0%Z →
  forallb (fun l => negb (is_header l)) body = true →
  match post with [] => true | h2 :: _ => is_header h2 end = true →
  forallb (not_named (key_of (strip h))) post = true →
  interpret_dfsadmin_report text = Return r →
  r !! key_of (strip h) = Some (List [])
  ∧ ∃ st, run step init (pre ++ h :: body) = Return st
          ∧ ∀ l, l ∈ body → is_key_value l = true →
                 holds (dfsadmin_dict st) (key_of (strip h)) (key_of (strip l)).
Proof.
  intros Htext [Hh Hc]%andb_true_iff Hn Hbody Hpost Hnamed.
  unfold interpret_dfsadmin_report, interpret_dfsadmin_lines. rewrite Htext.
  intros (stf & Hrun & [= <-])%bind_Return_inv.
  set (name := key_of (strip h)) in *.
  destruct (key_of_array_header _ Hc) as (a & s & Hname). fold name in Hname.
  apply run_app_inv in Hrun as (st0 & Hpre & Hrun).
  simpl in Hrun. apply bind_Return_inv in Hrun as (st1 & Hstep & Hrun).
  rewrite (step_header_line _ _ Hh), (header_array _ _ _ Hc Hn) in Hstep.
  injection Hstep as <-. fold name in Hrun. change (0 <? 0)%Z with false in Hrun.
  apply run_app_inv in Hrun as (st2 & Hrun2 & Hrun).
  fold (in_array (flush_at_header st0) name [] ∅ 0 false) in Hrun2.
  destruct (run_spent name [] 0 false a s body _ _ Hname eq_refl Hbody Hrun2)
    as (d' & -> & Hin & _).
  split.
  - destruct post as [|h2 post].
    + simpl in Hrun. injection Hrun as <-.
      rewrite (finish_in_array _ _ _ _ _ _ a s Hname). by rewrite lookup_insert_eq.
    + simpl in Hrun, Hnamed. apply andb_true_iff in Hnamed as [Hh2 Hnamed].
      apply bind_Return_inv in Hrun as (st3 & Hstep & Hrun).
      rewrite (step_header_line _ _ Hpost) in Hstep.
      assert (Hh2' : key_of (strip h2) ≠ name).
      { unfold not_named in Hh2. unfold is_header in Hpost.
        apply andb_true_iff in Hpost as [Hcol _]. rewrite Hcol in Hh2. simpl in Hh2.
        by apply negb_true_iff, String.eqb_neq in Hh2. }
      unfold header in Hstep. apply bind_Return_inv in Hstep as (n2 & _ & [= <-]).
      destruct (run_frame name post _ _ Hrun) as [E Hcs]; [simpl; congruence|done|].
      rewrite (finish_frame name stf Hcs), E. simpl.
      by rewrite (flush_in_array _ _ _ _ _ _ a s Hname), lookup_insert_eq.
  - exists (in_array d' name [] ∅ 0 false). split; [|done].
    rewrite (run_app_Return _ _ _ _ _ Hpre). simpl.
    rewrite (step_header_line _ _ Hh), (header_array _ _ _ Hc Hn). simpl. done.
Qed.

(** C2, as the code has it: the blank line that ends the last counted
    entry of an array section does not close the section.  For a header
    that declares [n] entries and is followed by [n] entries, each ended
    by a blank line, and then by a pair and by lines that are no
    headers up to the end of the input, the lines before the header
    being read without exception and the report not holding a string or
    a list under the name of the section once the header is read:
    after the last blank line the report that is being built is still
    what it was when the header was read, the list not in it, and the
    section is still the open one; the pair is assigned into a
    dictionary held under the name of the section in the report that is
    being built, and not at the top level; the call returns, and the
    report that it returns holds the list of the [n] entries under the
    name of the section and, under any other key, what the report held
    when the header was read, so that the pair is at no top-level key. *)
Theorem section_stays_open_after_last_entry text pre st0 h blanks0 es l rest (n : nat) :
  splitlines text = pre ++ h :: blanks0 ++ flat_map entry_lines es ++ l :: rest →
  run step init pre = Return st0 →
  is_array_header h = true →
  int (count_literal (strip h)) = Some (Z.of_nat n) →
  forallb is_blank blanks0 = true →
  forallb entry_ok es = true →
  length es = n →
  is_key_value l = true →
  forallb (fun l => negb (is_header l)) rest = true →
  (∀ x, flush_at_header st0 !! key_of (strip h) = Some x → ∃ o, x = Object o) →
  (∃ st st',
     run step init (pre ++ h :: blanks0 ++ flat_map entry_lines es) = Return st
     ∧ current_section st = Some (key_of (strip h))
     ∧ dfsadmin_dict st = flush_at_header st0
     ∧ length (current_object_list st) = n
     ∧ step st l = Return st'
     ∧ current_section st' = Some (key_of (strip h))
     ∧ (∃ o, dfsadmin_dict st' !! key_of (strip h) = Some (Object o)
             ∧ o !! key_of (strip l) = Some (value_of (strip l)))
     ∧ (key_of (strip l) ≠ key_of (strip h) →
        dfsadmin_dict st' !! key_of (strip l) = dfsadmin_dict st !! key_of (strip l)))
  ∧ ∃ r ol,
      interpret_dfsadmin_report text = Return r
      ∧ r !! key_of (strip h) = Some (List ol)
      ∧ length ol = n
      ∧ ∀ k, k ≠ key_of (strip h) → r !! k = flush_at_header st0 !! k.
Proof.
  intros Htext Hpre [Hh Hc]%andb_true_iff Hn Hb0 Hes Hlen Hl Hrest Hfree.
  set (name := key_of (strip h)) in *.
  destruct (key_of_array_header _ Hc) as (a & s & Hname). fold name in Hname.
  set (D := flush_at_header st0) in *.
  set (io := (0 <? Z.of_nat n)%Z).
  assert (Hrun : ∃ L, length L = n ∧
            run step init (pre ++ h :: blanks0 ++ flat_map entry_lines es)
            = Return (in_array D name L ∅ 0 io)).
  { rewrite (run_app_Return _ _ _ _ _ Hpre). simpl.
    rewrite (step_header_line _ _ Hh), (header_array _ _ _ Hc Hn). simpl.
    fold name D io (in_array D name [] ∅ (Z.of_nat n) io).
    rewrite (run_app_Return _ _ _ _ _ (run_blanks D name [] _ io blanks0 Hb0)).
    destruct es as [|e es].
    - exists []. simpl in *. subst n. done.
    - assert (io = true) as -> by (apply Z.ltb_lt; simpl in Hlen; lia).
      destruct (run_entries D name (e :: es) [] (Z.of_nat n) ltac:(lia) Hes)
        as (L' & HL' & ->).
      exists L'. split; [lia|]. simpl app. do 2 f_equal. lia. }
  destruct Hrun as (L & HL & Hrun).
  assert (Hg : io && (0 <? 0)%Z = false) by apply andb_false_r.
  split.
  - destruct (key_value_spent_total D name L ∅ 0 io (key_of (strip l)) (value_of (strip l))
                a s Hname Hg Hfree) as (st' & Hst').
    destruct (key_value_spent _ _ _ _ _ _ _ _ _ _ _ Hname Hg Hst') as (o0 & -> & Ho0).
    eexists _, _. split; [exact Hrun|].
    rewrite (step_key_value_line _ _ Hl).
    do 3 (split; [done|]). split; [exact Hst'|]. split; [done|]. split.
    + eexists. simpl. rewrite lookup_insert_eq. split; [done|]. by rewrite lookup_insert_eq.
    + intros Hne. simpl. by rewrite lookup_insert_ne.
  - assert (Hbody : forallb (fun l => negb (is_header l)) (l :: rest) = true).
    { simpl. by rewrite (is_key_value_not_header _ Hl). }
    destruct (run_spent_total name L 0 io a s (l :: rest) D Hname Hg Hbody Hfree)
      as [stf Hstf].
    destruct (run_spent name L 0 io a s (l :: rest) D stf Hname Hg Hbody Hstf)
      as (d' & -> & _ & _ & Hother & _).
    exists (<[name := List L]> d'), L.
    split; [|split; [by rewrite lookup_insert_eq|split; [done|]]].
    + unfold interpret_dfsadmin_report, interpret_dfsadmin_lines. rewrite Htext.
      replace (pre ++ h :: blanks0 ++ flat_map entry_lines es ++ l :: rest)
        with ((pre ++ h :: blanks0 ++ flat_map entry_lines es) ++ l :: rest).
      2:{ rewrite <- !app_assoc. simpl. by rewrite <- !app_assoc. }
      rewrite (run_app_Return _ _ _ _ _ Hrun), Hstf. simpl.
      by rewrite (finish_in_array _ _ _ _ _ _ a s Hname).
    + intros k Hk. rewrite lookup_insert_ne by done. by apply Hother.
Qed.


(** C6, as the code has it: the capacity report stores the value of a
    pair cut at its first parenthetical, the consistency report stores
    it whole.  In the capacity report the value that is stored is the
    stripped text after the first colon up to the first occurrence of
    a space followed by an opening parenthesis, it has no such
    occurrence left, and it goes into the entry in progress, into the
    open section or to the top level; in the consistency report the
    value that is stored is the stripped text after the first colon. *)
Theorem parenthetical_cut_in_capacity_report_only :
  (∀ st l st',
     step st l = Return st' → is_key_value l = true →
     let raw := strip (after_first ":" (strip l)) in
     let v := split_head " (" raw in
     let k := key_of (strip l) in
     (if in_object_section st && (0 <? objects_remaining st)%Z
      then current_object st' !! k = Some v
      else match current_section st with
           | Some (String a r) =>
               ∃ o, dfsadmin_dict st' !! String a r = Some (Object o) ∧ o !! k = Some v
           | _ => dfsadmin_dict st' !! k = Some (Leaf v)
           end)
     ∧ occurs " (" v = false
     ∧ ∃ rest, raw = v +:+ rest ∧ (rest = "" ∨ startswith " (" rest = true))
  ∧ (∀ st l st',
       Fsck.step st l = Return st' → Fsck.is_header l = false → contains ":" l = true →
       let v := strip (after_first ":" l) in
       let k := Fsck.key_of l in
       match Fsck.current_section st with
       | Some sec => ∃ o, Fsck.fsck_dict st' !! sec = Some (Object o) ∧ o !! k = Some v
       | None => Fsck.fsck_dict st' !! k = Some (Leaf v)
       end).
Proof.
  split.
  - intros st l st' Hstep Hl. cbv zeta.
    split; [|split; [apply occurs_split_head | apply split_head_rest]].
    rewrite (step_key_value_line _ _ Hl) in Hstep. revert Hstep.
    fold (value_of (strip l)). unfold key_value.
    destruct (in_object_section st && (0 <? objects_remaining st)%Z).
    { intros [= <-]; simpl. by rewrite lookup_insert_eq. }
    destruct (current_section st) as [[|a r]|].
    + intros [= <-]; simpl. by rewrite lookup_insert_eq.
    + simpl. intros (d' & Hset & [= <-])%bind_Return_inv; simpl.
      revert Hset. unfold setitem_in.
      destruct (dfsadmin_dict st !! String a r) as [x|] eqn:Hd.
      * rewrite Hd. destruct x as [|o|]; try done. intros [= <-].
        eexists. rewrite lookup_insert_eq. split; [done|]. by rewrite lookup_insert_eq.
      * rewrite lookup_insert_eq. intros [= <-].
        eexists. rewrite lookup_insert_eq. split; [done|]. by rewrite lookup_insert_eq.
    + intros [= <-]; simpl. by rewrite lookup_insert_eq.
  - intros st l st'. unfold Fsck.step, Fsck.is_header. intros Hstep Hh Hc.
    rewrite Hc in Hstep, Hh. simpl in Hh. rewrite Hh in Hstep. cbv zeta.
    fold (Fsck.value_of l). revert Hstep.
    destruct (Fsck.current_section st) as [sec|].
    + unfold setitem_in.
      destruct (Fsck.fsck_dict st !! sec) as [[|o|]|]; simpl; try done.
      intros [= <-]; simpl. eexists. rewrite lookup_insert_eq. split; [done|].
      by rewrite lookup_insert_eq.
    + intros [= <-]; simpl. by rewrite lookup_insert_eq.
Qed.

End DfsadminFacts.

(** ** The claims on concrete reports *)

Module Examples.
Import Dfsadmin DfsadminFacts Reports.

(** *** Capacity reports *)

(** C5, as the code has it: the section is stored under the normalized
    name [name], not under [Name]; the blank line closes it and the pair
    that follows goes to the top level. *)
Theorem scalar_section_closed_by_blank_line :
  interpret_dfsadmin_report scalar_report
  = Return (<["name" := Object {["foo" := "bar"]}]> {["baz" := Leaf "qux"]}).
Proof. vm_compute. reflexivity. Qed.

(** The report has nothing under [Name]. *)
Lemma scalar_section_not_under_raw_name :
  ¬ ∃ r, interpret_dfsadmin_report scalar_report = Return r
         ∧ r !! "Name" = Some (Object {["foo" := "bar"]})
         ∧ r !! "baz" = Some (Leaf "qux").
Proof.
  intros (r & Hr & Hname & _). vm_compute in Hr. injection Hr as <-.
  vm_compute in Hname. discriminate.
Qed.

(** C3: a header read while an array section is open stores the list
    without the entry in progress, which is lost; a blank line before
    the header, or the end of the input in place of the header, stores
    the entry. *)
Theorem header_drops_entry_in_progress :
  interpret_dfsadmin_report (join_lines ["A (2):"; "x: 1"; "B:"])
  = Return (<["a" := List []]> {["b" := Object ∅]})
  ∧ interpret_dfsadmin_report (join_lines ["A (2):"; "x: 1"; ""; "B:"])
    = Return (<["a" := List [{["x" := "1"]}]]> {["b" := Object ∅]})
  ∧ interpret_dfsadmin_report (join_lines ["A (2):"; "x: 1"])
    = Return {["a" := List [{["x" := "1"]}]]}.
Proof. vm_compute. repeat split. Qed.

(** The list of a section with one entry, as declared, is replaced by
    the string of a later pair with the name of the section as its key. *)
Lemma array_section_overwritten_later :
  interpret_dfsadmin_report (join_lines overwritten_report)
  = Return (<["a" := Leaf "5"]> {["b" := Object ∅]})
  ∧ ¬ ∃ r ol, interpret_dfsadmin_report (join_lines overwritten_report) = Return r
              ∧ r !! "a" = Some (List ol) ∧ length ol = 1.
Proof.
  split; [vm_compute; reflexivity|].
  intros (r & ol & Hr & Ha & _). vm_compute in Hr. injection Hr as <-.
  vm_compute in Ha. discriminate.
Qed.

(** The empty list of a section of count zero is replaced by the
    dictionary of a later section with the same name. *)
Lemma count_zero_section_reopened :
  interpret_dfsadmin_report (join_lines reopened_report)
  = Return {["a" := Object {["y" := "2"]}]}
  ∧ ¬ ∃ r, interpret_dfsadmin_report (join_lines reopened_report) = Return r
           ∧ r !! "a" = Some (List []).
Proof.
  split; [vm_compute; reflexivity|].
  intros (r & Hr & Ha). vm_compute in Hr. injection Hr as <-.
  vm_compute in Ha. discriminate.
Qed.

Lemma array_section_length_witness :
  ∃ r l, interpret_dfsadmin_report truncated_report = Return r
         ∧ r !! key_of (strip datanodes3) = Some (List l)
         ∧ length l = entry_count [node1; node2] [].
Proof.
  destruct (array_section_length truncated_report [] init datanodes3 [""]
              [node1; node2] [] [] 3) as [Hret Hlen]; try (vm_compute; reflexivity).
  { vm_compute. lia. }
  destruct (Hret eq_refl) as [r Hr]. destruct (Hlen r Hr) as [l Hl]. eauto.
Defined.

(** The pair after the entry of the only datanode is not in the report
    that is returned, and after the blank line the report is empty and
    the section still open. *)
Lemma pair_after_last_entry_not_at_top_level :
  (¬ ∃ r, interpret_dfsadmin_report (join_lines (one_node_report ++ ["y: 2"])) = Return r
          ∧ r !! "y" = Some (Leaf "2"))
  ∧ interpret_dfsadmin_report (join_lines (one_node_report ++ ["y: 2"]))
    = Return {["live_datanodes" := List [{["name" := "10.0.0.1:50010"]}]]}
  ∧ run step init one_node_report
    = Return (State ∅ (Some "live_datanodes") [{["name" := "10.0.0.1:50010"]}] ∅ 0 true true).
Proof.
  split; [|split; vm_compute; reflexivity].
  intros (r & Hr & Hy). vm_compute in Hr. injection Hr as <-.
  vm_compute in Hy. discriminate.
Qed.

Lemma section_stays_open_witness :
  ∃ r ol,
    interpret_dfsadmin_report (join_lines (one_node_report ++ ["y: 2"])) = Return r
    ∧ r !! key_of (strip "Live datanodes (1):") = Some (List ol)
    ∧ length ol = 1
    ∧ ∀ k, k ≠ key_of (strip "Live datanodes (1):") → r !! k = flush_at_header init !! k.
Proof.
  apply (section_stays_open_after_last_entry (join_lines (one_node_report ++ ["y: 2"]))
           [] init "Live datanodes (1):" []
           [Entry ["Name: 10.0.0.1:50010 (host1)"] [""]] "y: 2" [] 1);
    try (vm_compute; reflexivity).
  intros x Hx. vm_compute in Hx. discriminate.
Defined.



Lemma count_zero_section_witness :
  (<["dead_datanodes" := List []]> {["other" := Object {["k" := "v"]}]} : gmap string Value)
    !! key_of (strip "Dead datanodes (0):") = Some (List []).
Proof.
  apply (count_zero_section_is_empty_list dead_report []
           "Dead datanodes (0):" ["Last contact: never"] ["Other:"; "k: v"]);
    vm_compute; reflexivity.
Defined.

Lemma parenthetical_cut_witness :
  let st' := State {["name" := Leaf "10.0.0.1:50010"]} None [] ∅ 0 false false in
  dfsadmin_dict st' !! "name" = Some (Leaf "10.0.0.1:50010").
Proof.
  exact (proj1 (proj1 parenthetical_cut_in_capacity_report_only init
                  "Name: 10.0.0.1:50010 (host1)"
                  (State {["name" := Leaf "10.0.0.1:50010"]} None [] ∅ 0 false false)
                  eq_refl eq_refl)).
Defined.

(** *** Consistency reports *)

(** The value keeps its parenthetical. *)
Lemma fsck_keeps_parenthetical :
  Fsck.interpret_fsck_output "Status: HEALTHY (ok)"
  = Return {["Status" := Leaf "HEALTHY (ok)"]}
  ∧ Fsck.interpret_fsck_output "Status: HEALTHY (ok)"
    ≠ Return {["Status" := Leaf "HEALTHY"]}.
Proof. split; [vm_compute; reflexivity|]. vm_compute. discriminate. Qed.

(** The key loses the whitespace around it. *)
Lemma fsck_key_is_stripped :
  ∃ r, Fsck.interpret_fsck_output " Total size : 5 B" = Return r
       ∧ split_head ":" " Total size : 5 B" = " Total size "
       ∧ r !! " Total size " = None
       ∧ r !! "Total size" = Some (Leaf "5 B").
Proof. eexists. vm_compute. repeat split. Qed.

Lemma fsck_keys_witness :
  ∃ line, line ∈ splitlines " Total size : 5 B" ∧ contains ":" line = true
          ∧ "Total size" = strip (split_head ":" line).
Proof.
  apply (proj2 FsckFacts.fsck_keys_are_stripped_raw_keys " Total size : 5 B"
           {["Total size" := Leaf "5 B"]} "Total size").
  - vm_compute. reflexivity.
  - left. vm_compute. eauto.
Defined.

Lemma fsck_repeated_header_witness :
  (∃ st, run Fsck.step Fsck.init ([] ++ "Status:" :: ["a: 1"] ++ ["Status:"]) = Return st
         ∧ Fsck.fsck_dict st !! Fsck.key_of "Status:" = Some (Object ∅))
  ∧ ∃ r r', Fsck.interpret_fsck_output (join_lines ["Status:"; "a: 1"; "Status:"; "b: 2"])
            = Return r
            ∧ Fsck.interpret_fsck_lines ["Status:"; "b: 2"] = Return r'
            ∧ r !! Fsck.key_of "Status:" = r' !! Fsck.key_of "Status:".
Proof.
  apply (FsckFacts.fsck_repeated_header_resets
           (join_lines ["Status:"; "a: 1"; "Status:"; "b: 2"])
           [] "Status:" ["a: 1"] "Status:" ["b: 2"]); vm_compute; reflexivity.
Defined.

End Examples.

(** ** More on the consistency report *)

Module FsckMore.
Import Fsck FsckFacts Pairs.

Lemma assign_all_snoc m kvs k v :
  assign_all m (kvs ++ [(k, v)]) = <[k := v]> (assign_all m kvs).
Proof. unfold assign_all. by rewrite foldl_app. Qed.

Lemma assign_all_cons m k v kvs :
  assign_all m ((k, v) :: kvs) = assign_all (<[k := v]> m) kvs.
Proof. done. Qed.

Lemma fsck_never_raises_run text : ∃ r, interpret_fsck_output text = Return r.
Proof.
  unfold interpret_fsck_output, interpret_fsck_lines.
  destruct (fsck_run_total init (splitlines text) fsck_wf_init) as (st & -> & _).
  simpl. eauto.
Qed.

(** The interpreter of the consistency report raises no exception,
    whatever the text. *)
Theorem fsck_never_raises text : ∃ r, interpret_fsck_output text = Return r.
Proof. apply fsck_never_raises_run. Qed.

(** A line that is no header, read at the top level or in a section. *)
Lemma fsck_step_not_header st l :
  is_header l = false →
  step st l
  = match fsck_pair l with
    | Some (k, v) =>
        match current_section st with
        | Some sec => d ← setitem_in (fsck_dict st) sec k v; Return (State d (Some sec))
        | None => Return (State (<[k := Leaf v]> (fsck_dict st)) None)
        end
    | None => Return st
    end.
Proof.
  unfold is_header, step, fsck_pair. destruct (contains ":" l); simpl; [|done].
  intros ->. simpl. by destruct (current_section st).
Qed.

Lemma fsck_run_top_level lines : ∀ m,
  forallb (fun l => negb (is_header l)) lines = true →
  run step (State (Leaf <$> m) None) lines
  = Return (State (Leaf <$> assign_all m (fsck_pairs lines)) None).
Proof.
  induction lines as [|l lines IH]; intros m; simpl; [done|].
  intros [Hl%negb_true_iff Hls]%andb_true_iff.
  rewrite (fsck_step_not_header _ _ Hl). unfold fsck_pairs. simpl.
  destruct (fsck_pair l) as [[k v]|]; simpl.
  - rewrite <- fmap_insert. by apply IH.
  - by apply IH.
Qed.

(** Without any header line every pair is stored at the top level, a
    later pair replacing an earlier one with the same key. *)
Theorem fsck_top_level_without_header text :
  forallb (fun l => negb (is_header l)) (splitlines text) = true →
  interpret_fsck_output text
  = Return (Leaf <$> assign_all ∅ (fsck_pairs (splitlines text))).
Proof.
  intros H. unfold interpret_fsck_output, interpret_fsck_lines.
  pose proof (fsck_run_top_level (splitlines text) ∅ H) as Hrun.
  rewrite fmap_empty in Hrun. unfold init. by rewrite Hrun.
Qed.

Lemma fsck_top_level_without_header_witness :
  interpret_fsck_output (join_lines ["a: 1"; "no colon"; "b: 2"; "a: 3"])
  = Return (Leaf <$> assign_all ∅ (fsck_pairs
              (splitlines (join_lines ["a: 1"; "no colon"; "b: 2"; "a: 3"])))).
Proof. apply fsck_top_level_without_header. reflexivity. Defined.

Lemma fsck_run_in_section sec lines : ∀ d o,
  d !! sec = Some (Object o) →
  forallb (fun l => negb (is_header l)) lines = true →
  ∃ d', run step (State d (Some sec)) lines = Return (State d' (Some sec))
        ∧ d' !! sec = Some (Object (assign_all o (fsck_pairs lines)))
        ∧ ∀ k, k ≠ sec → d' !! k = d !! k.
Proof.
  induction lines as [|l lines IH]; intros d o Hd; simpl.
  - intros _. exists d. done.
  - intros [Hl%negb_true_iff Hls]%andb_true_iff.
    rewrite (fsck_step_not_header _ _ Hl). unfold fsck_pairs. simpl.
    destruct (fsck_pair l) as [[k v]|]; simpl.
    + unfold setitem_in. rewrite Hd. simpl.
      destruct (IH (<[sec := Object (<[k := v]> o)]> d) (<[k := v]> o)) as (d' & -> & Hsec & Hother);
        [by rewrite lookup_insert_eq | done |].
      exists d'. split; [done|]. split; [done|].
      intros k' Hk'. rewrite (Hother k' Hk'). by rewrite lookup_insert_ne.
    + by apply IH.
Qed.

(** The last section of a consistency report holds the pairs of the
    lines that follow its header, a later pair replacing an earlier one
    with the same key. *)
Theorem fsck_last_section_content text pre h body :
  splitlines text = pre ++ h :: body →
  is_header h = true →
  forallb (fun l => negb (is_header l)) body = true →
  ∃ r, interpret_fsck_output text = Return r
       ∧ r !! key_of h = Some (Object (assign_all ∅ (fsck_pairs body))).
Proof.
  intros Htext Hh Hbody.
  destruct (fsck_run_total init pre fsck_wf_init) as (st0 & Hpre & _).
  destruct (fsck_run_in_section (key_of h) body
              (<[key_of h := Object ∅]> (fsck_dict st0)) ∅) as (d' & Hrun & Hsec & _);
    [by rewrite lookup_insert_eq | done |].
  exists d'. split; [|done].
  unfold interpret_fsck_output, interpret_fsck_lines. rewrite Htext.
  rewrite (run_app_Return _ _ _ _ _ Hpre). simpl.
  rewrite (fsck_step_header _ _ Hh). simpl. by rewrite Hrun.
Qed.

Lemma fsck_last_section_content_witness :
  ∃ r, interpret_fsck_output (join_lines ["x: 0"; "Status:"; "a: 1"; "a: 2"]) = Return r
       ∧ r !! key_of "Status:" = Some (Object (assign_all ∅ (fsck_pairs ["a: 1"; "a: 2"]))).
Proof.
  apply (fsck_last_section_content _ ["x: 0"] "Status:" ["a: 1"; "a: 2"]); reflexivity.
Defined.

(** Once a section is open, no line changes a string stored at the top
    level into another string, or adds one. *)
Lemma fsck_step_leaves st l st' sec :
  current_section st = Some sec → step st l = Return st' →
  (∃ sec', current_section st' = Some sec')
  ∧ ∀ k v, fsck_dict st' !! k = Some (Leaf v) → fsck_dict st !! k = Some (Leaf v).
Proof.
  intros Hcs. unfold step. destruct (contains ":" l).
  2:{ intros [= <-]. split; [eauto|done]. }
  destruct (String.eqb (value_of l) "").
  - intros [= <-]; simpl. split; [eauto|]. intros k v.
    destruct (decide (key_of l = k)) as [<-|Hne].
    + by rewrite lookup_insert_eq.
    + by rewrite lookup_insert_ne.
  - rewrite Hcs. unfold setitem_in.
    destruct (fsck_dict st !! sec) as [[|o|]|] eqn:Hd; simpl; try done.
    intros [= <-]; simpl. split; [eauto|]. intros k v.
    destruct (decide (sec = k)) as [<-|Hne].
    + by rewrite lookup_insert_eq.
    + by rewrite lookup_insert_ne.
Qed.

Lemma fsck_run_leaves lines : ∀ st st' sec,
  current_section st = Some sec → run step st lines = Return st' →
  ∀ k v, fsck_dict st' !! k = Some (Leaf v) → fsck_dict st !! k = Some (Leaf v).
Proof.
  induction lines as [|l lines IH]; intros st st' sec Hcs; simpl.
  - by intros [= <-].
  - intros (st1 & Hstep & Hrun)%bind_Return_inv k v Hk.
    destruct (fsck_step_leaves _ _ _ _ Hcs Hstep) as [[sec' Hcs'] Hl].
    apply Hl. by apply (IH st1 st' sec').
Qed.

(** A section of the consistency report is never closed: every string
    that the returned report holds at the top level was stored there by
    the lines before the first header, and no line after the header
    replaced it. *)
Theorem fsck_top_level_frozen_after_header text pre h post r k v :
  splitlines text = pre ++ h :: post →
  is_header h = true →
  interpret_fsck_output text = Return r →
  r !! k = Some (Leaf v) →
  ∃ r0, interpret_fsck_lines pre = Return r0 ∧ r0 !! k = Some (Leaf v).
Proof.
  intros Htext Hh. unfold interpret_fsck_output, interpret_fsck_lines. rewrite Htext.
  intros (st & Hrun & [= <-])%bind_Return_inv Hk.
  apply run_app_inv in Hrun as (st0 & Hpre & Hrun). rewrite Hpre. simpl.
  exists (fsck_dict st0). split; [done|].
  simpl in Hrun. rewrite (fsck_step_header _ _ Hh) in Hrun. simpl in Hrun.
  pose proof (fsck_run_leaves post (State _ (Some (key_of h))) st (key_of h)
                eq_refl Hrun k v Hk) as H0. simpl in H0.
  destruct (decide (key_of h = k)) as [<-|Hne].
  - by rewrite lookup_insert_eq in H0.
  - by rewrite lookup_insert_ne in H0.
Qed.

Lemma fsck_top_level_frozen_after_header_witness :
  ∃ r0, interpret_fsck_lines ["x: 0"] = Return r0 ∧ r0 !! "x" = Some (Leaf "0").
Proof.
  apply (fsck_top_level_frozen_after_header
           (join_lines ["x: 0"; "Status:"; "x: 1"; "y: 2"]) ["x: 0"] "Status:"
           ["x: 1"; "y: 2"]
           (<["x" := Leaf "0"]> {["Status" := Object (<["x" := "1"]> {["y" := "2"]})]}));
    vm_compute; reflexivity.
Defined.

End FsckMore.

(** ** What every report holds *)

Module Sound.
Import Pairs.

Lemma rstrip_with_idem sp s : rstrip_with sp (rstrip_with sp s) = rstrip_with sp s.
Proof.
  induction s as [|c s IH]; simpl; [done|].
  destruct (rstrip_with sp s) as [|b r] eqn:E.
  - destruct (sp c) eqn:Hc; simpl; [done|]. by rewrite Hc.
  - cbn [rstrip_with]. cbn [rstrip_with] in IH. by rewrite IH.
Qed.

Lemma strip_idem s : strip (strip s) = strip s.
Proof.
  unfold strip at 1. rewrite (lstrip_head_nonspace (strip s)) by apply head_nonspace_strip.
  unfold strip, rstrip. apply rstrip_with_idem.
Qed.

Section ok_facts.
Context (P Q : string → Prop).

Lemma object_ok_empty : object_ok P Q ∅.
Proof. apply map_Forall_empty. Qed.

Lemma object_ok_insert o k v :
  P k → Q v → object_ok P Q o → object_ok P Q (<[k := v]> o).
Proof. intros. by apply map_Forall_insert_2. Qed.

Lemma report_ok_empty : report_ok P Q ∅.
Proof. apply map_Forall_empty. Qed.

Lemma report_ok_insert d k x :
  P k → value_ok P Q x → report_ok P Q d → report_ok P Q (<[k := x]> d).
Proof. intros. by apply map_Forall_insert_2. Qed.

Lemma report_ok_lookup d k x : report_ok P Q d → d !! k = Some x → P k ∧ value_ok P Q x.
Proof. intros Hd Hk. by apply (map_Forall_lookup_1 _ _ _ _ Hd Hk). Qed.

Lemma setitem_in_ok d sec k v d' :
  report_ok P Q d → P k → Q v → setitem_in d sec k v = Return d' → report_ok P Q d'.
Proof.
  intros Hd Hk Hv. unfold setitem_in.
  destruct (d !! sec) as [[|o|]|] eqn:E; try done. intros [= <-].
  destruct (report_ok_lookup _ _ _ Hd E) as [Hsec Ho].
  apply report_ok_insert; [done| |done]. by apply object_ok_insert.
Qed.

End ok_facts.

(** *** The consistency report *)

Lemma fsck_sound_init : fsck_sound Fsck.init.
Proof. split; [apply report_ok_empty|]. intros sec; discriminate. Qed.

Lemma fsck_step_sound st l st' :
  fsck_sound st → Fsck.step st l = Return st' → fsck_sound st'.
Proof.
  intros [Hd Hcs]. unfold Fsck.step.
  destruct (contains ":" l); [|by intros [= <-]].
  assert (Hk : stripped (Fsck.key_of l)) by apply strip_idem.
  destruct (String.eqb (Fsck.value_of l) "") eqn:Hv.
  - intros [= <-]. split; simpl.
    + apply report_ok_insert; [done|apply object_ok_empty|done].
    + by intros sec [= <-].
  - apply String.eqb_neq in Hv.
    assert (Hv' : stripped_nonempty (Fsck.value_of l)) by (split; [done|apply strip_idem]).
    destruct (Fsck.current_section st) as [sec|] eqn:E.
    + intros (d & Hset & [= <-])%bind_Return_inv. split; simpl; [|done].
      by apply (setitem_in_ok _ _ _ _ _ _ _ Hd Hk Hv' Hset).
    + intros [= <-]. split; simpl; [|done]. by apply report_ok_insert.
Qed.

Lemma fsck_run_sound lines : ∀ st st',
  fsck_sound st → run Fsck.step st lines = Return st' → fsck_sound st'.
Proof.
  induction lines as [|l lines IH]; intros st st' Hst; simpl.
  - by intros [= <-].
  - intros (st1 & Hstep & Hrun)%bind_Return_inv.
    apply (IH st1 st'); [|done]. by apply (fsck_step_sound st l).
Qed.

(** No line of a consistency report stores a list. *)
Lemma fsck_step_no_list st l st' :
  (∀ k ol, Fsck.fsck_dict st !! k ≠ Some (List ol)) →
  Fsck.step st l = Return st' →
  ∀ k ol, Fsck.fsck_dict st' !! k ≠ Some (List ol).
Proof.
  intros H0. unfold Fsck.step. destruct (contains ":" l); [|by intros [= <-]].
  destruct (String.eqb (Fsck.value_of l) "").
  - intros [= <-] k ol. simpl.
    destruct (decide (Fsck.key_of l = k)) as [<-|Hne].
    + by rewrite lookup_insert_eq.
    + rewrite lookup_insert_ne by done. apply H0.
  - destruct (Fsck.current_section st) as [sec|].
    + unfold setitem_in. destruct (Fsck.fsck_dict st !! sec) as [[|o|]|]; simpl; try done.
      intros [= <-] k ol. simpl.
      destruct (decide (sec = k)) as [<-|Hne].
      * by rewrite lookup_insert_eq.
      * rewrite lookup_insert_ne by done. apply H0.
    + intros [= <-] k ol. simpl.
      destruct (decide (Fsck.key_of l = k)) as [<-|Hne].
      * by rewrite lookup_insert_eq.
      * rewrite lookup_insert_ne by done. apply H0.
Qed.

Lemma fsck_run_no_list lines : ∀ st st',
  (∀ k ol, Fsck.fsck_dict st !! k ≠ Some (List ol)) →
  run Fsck.step st lines = Return st' →
  ∀ k ol, Fsck.fsck_dict st' !! k ≠ Some (List ol).
Proof.
  induction lines as [|l lines IH]; intros st st' H0; simpl.
  - by intros [= <-].
  - intros (st1 & Hstep & Hrun)%bind_Return_inv.
    apply (IH st1 st'); [|done]. by apply (fsck_step_no_list st l).
Qed.

Lemma fsck_init_no_list k ol : Fsck.fsck_dict Fsck.init !! k ≠ Some (List ol).
Proof. simpl. by rewrite lookup_empty. Qed.

(** In the report of [interpret_fsck_output] no key, at the top level
    or in a section, has whitespace at either end, no string that is
    stored is empty or has whitespace at either end, and nothing is a
    list: a key is bound to a string or to a dictionary of strings. *)
Theorem fsck_report_stripped text :
  ∃ r, Fsck.interpret_fsck_output text = Return r
       ∧ ∀ k x, r !! k = Some x →
           strip k = k
           ∧ match x with
             | Leaf v => v ≠ "" ∧ strip v = v
             | Object o => ∀ k' v, o !! k' = Some v → strip k' = k' ∧ v ≠ "" ∧ strip v = v
             | List _ => False
             end.
Proof.
  unfold Fsck.interpret_fsck_output, Fsck.interpret_fsck_lines.
  destruct (FsckFacts.fsck_run_total Fsck.init (splitlines text) FsckFacts.fsck_wf_init)
    as (st & Hrun & _).
  rewrite Hrun. simpl. eexists. split; [done|].
  destruct (fsck_run_sound _ _ _ fsck_sound_init Hrun) as [Hd _].
  intros k x Hk. destruct (report_ok_lookup _ _ _ _ _ Hd Hk) as [HP Hx].
  split; [done|]. destruct x as [v|o|ol]; simpl in Hx.
  - done.
  - intros k' v Hv. by destruct (map_Forall_lookup_1 _ _ _ _ Hx Hv) as [? [? ?]].
  - exact (fsck_run_no_list _ _ _ fsck_init_no_list Hrun k ol Hk).
Qed.

(** *** The capacity report *)

Lemma normalized_key_of line : normalized (Dfsadmin.key_of line).
Proof. apply NormalizeFacts.normalize_settled. Qed.

Lemma cut_value_of line :
  String.eqb (Dfsadmin.value_of line) "" = false → cut (Dfsadmin.value_of line).
Proof.
  intros H. split; [by apply String.eqb_neq|]. apply occurs_split_head.
Qed.

Lemma dfs_sound_init : dfs_sound Dfsadmin.init.
Proof.
  split; [apply report_ok_empty|]. split; [intros sec; discriminate|].
  split; [apply object_ok_empty|constructor].
Qed.

Lemma flush_at_header_ok st :
  dfs_sound st → report_ok normalized cut (Dfsadmin.flush_at_header st).
Proof.
  intros (Hd & Hcs & Ho & Hl). unfold Dfsadmin.flush_at_header.
  destruct (Dfsadmin.current_section st) as [sec|]; [|done].
  destruct (truthy (Some sec)); [|done].
  destruct (Dfsadmin.is_array st); apply report_ok_insert; auto.
Qed.

Lemma finish_ok st : dfs_sound st → report_ok normalized cut (Dfsadmin.finish st).
Proof.
  intros (Hd & Hcs & Ho & Hl). unfold Dfsadmin.finish.
  destruct (Dfsadmin.current_section st) as [sec|]; [|done].
  destruct (truthy (Some sec)); [|done].
  destruct (Dfsadmin.is_array st); apply report_ok_insert; auto.
  simpl. case_bool_decide as Hempty; [done|].
  apply Forall_app. split; [done|]. by constructor.
Qed.

Lemma dfs_step_sound st l st' :
  dfs_sound st → Dfsadmin.step st l = Return st' → dfs_sound st'.
Proof.
  intros Hst. pose proof Hst as (Hd & Hcs & Ho & Hl). unfold Dfsadmin.step.
  destruct (contains ":" (strip l)).
  - destruct (String.eqb (Dfsadmin.value_of (strip l)) "") eqn:Hv.
    + unfold Dfsadmin.header. intros (n & _ & [= <-])%bind_Return_inv.
      split; simpl; [by apply flush_at_header_ok|].
      split; [intros sec [= <-]; apply normalized_key_of|].
      split; [apply object_ok_empty|constructor].
    + pose proof (normalized_key_of (strip l)) as Hk.
      pose proof (cut_value_of _ Hv) as Hc.
      unfold Dfsadmin.key_value.
      destruct (Dfsadmin.in_object_section st && (0 <? Dfsadmin.objects_remaining st)%Z).
      { intros [= <-]. split; [done|]. split; [done|]. split; [|done].
        simpl. by apply object_ok_insert. }
      destruct (Dfsadmin.current_section st) as [sec|] eqn:E.
      * destruct (truthy (Some sec)).
        -- intros (d' & Hset & [= <-])%bind_Return_inv.
           split; simpl; [|done].
           apply (setitem_in_ok normalized cut _ _ _ _ _) with (4 := Hset); [|done|done].
           destruct (Dfsadmin.dfsadmin_dict st !! sec); [done|].
           apply report_ok_insert; [by apply Hcs|apply object_ok_empty|done].
        -- intros [= <-]. split; simpl; [by apply report_ok_insert|done].
      * intros [= <-]. split; simpl; [by apply report_ok_insert|done].
  - destruct (String.eqb (strip l) ""); intros [= <-]; [|done].
    unfold Dfsadmin.blank.
    destruct (Dfsadmin.current_section st) as [sec|] eqn:E; [|done].
    destruct (Dfsadmin.in_object_section st); [|done].
    destruct (Dfsadmin.is_array st); simpl.
    + case_bool_decide as Hempty.
      * split; [done|]. split; [done|]. split; [apply object_ok_empty|done].
      * split; [done|]. split; [done|]. split; [apply object_ok_empty|].
        apply Forall_app. split; [done|]. by constructor.
    + split; simpl; [apply report_ok_insert; auto|].
      split; [intros ?; discriminate|]. split; [apply object_ok_empty|done].
Qed.

Lemma dfs_run_sound lines : ∀ st st',
  dfs_sound st → run Dfsadmin.step st lines = Return st' → dfs_sound st'.
Proof.
  induction lines as [|l lines IH]; intros st st' Hst; simpl.
  - by intros [= <-].
  - intros (st1 & Hstep & Hrun)%bind_Return_inv.
    apply (IH st1 st'); [|done]. by apply (dfs_step_sound st l).
Qed.

Lemma dfs_report_ok text r :
  Dfsadmin.interpret_dfsadmin_report text = Return r → report_ok normalized cut r.
Proof.
  unfold Dfsadmin.interpret_dfsadmin_report, Dfsadmin.interpret_dfsadmin_lines.
  intros (st & Hrun & [= <-])%bind_Return_inv.
  apply finish_ok. by apply (dfs_run_sound _ _ _ dfs_sound_init Hrun).
Qed.

(** No string that a capacity report stores is empty or has a space
    followed by an opening parenthesis in it: neither a string at the
    top level, nor one in a section, nor one in an entry of a list. *)
Theorem dfs_report_strings_cut text r k x :
  Dfsadmin.interpret_dfsadmin_report text = Return r → r !! k = Some x →
  match x with
  | Leaf v => v ≠ "" ∧ occurs " (" v = false
  | Object o => ∀ k' v, o !! k' = Some v → v ≠ "" ∧ occurs " (" v = false
  | List ol => ∀ o k' v, o ∈ ol → o !! k' = Some v → v ≠ "" ∧ occurs " (" v = false
  end.
Proof.
  intros Hr Hk.
  destruct (report_ok_lookup _ _ _ _ _ (dfs_report_ok _ _ Hr) Hk) as [_ Hx].
  destruct x as [v|o|ol]; simpl in Hx.
  - done.
  - intros k' v Hv. by destruct (map_Forall_lookup_1 _ _ _ _ Hx Hv) as [_ ?].
  - intros o k' v Ho Hv. rewrite Forall_forall in Hx.
    destruct (Hx o Ho) as [_ Hok].
    by destruct (map_Forall_lookup_1 _ _ _ _ Hok Hv) as [_ ?].
Qed.

(** No list of a capacity report has an empty dictionary in it. *)
Theorem dfs_report_entries_nonempty text r k ol o :
  Dfsadmin.interpret_dfsadmin_report text = Return r → r !! k = Some (List ol) →
  o ∈ ol → o ≠ ∅.
Proof.
  intros Hr Hk Ho.
  destruct (report_ok_lookup _ _ _ _ _ (dfs_report_ok _ _ Hr) Hk) as [_ Hx].
  simpl in Hx. rewrite Forall_forall in Hx. by destruct (Hx o Ho).
Qed.

(** Every key of a capacity report, at the top level, in a section or
    in an entry of a list, is a normalized key: it has no space and no
    percent sign in it and [lower] leaves it as it is. *)
Theorem dfs_report_keys_normalized text r k x :
  Dfsadmin.interpret_dfsadmin_report text = Return r → r !! k = Some x →
  allc Dfsadmin.settled k = true
  ∧ match x with
    | Leaf _ => True
    | Object o => ∀ k', is_Some (o !! k') → allc Dfsadmin.settled k' = true
    | List ol => ∀ o k', o ∈ ol → is_Some (o !! k') → allc Dfsadmin.settled k' = true
    end.
Proof.
  intros Hr Hk.
  destruct (report_ok_lookup _ _ _ _ _ (dfs_report_ok _ _ Hr) Hk) as [HP Hx].
  split; [done|]. destruct x as [v|o|ol]; simpl in Hx.
  - done.
  - intros k' [v Hv]. by destruct (map_Forall_lookup_1 _ _ _ _ Hx Hv) as [? _].
  - intros o k' Ho [v Hv]. rewrite Forall_forall in Hx.
    destruct (Hx o Ho) as [_ Hok].
    by destruct (map_Forall_lookup_1 _ _ _ _ Hok Hv) as [? _].
Qed.

End Sound.

(** ** More on the capacity report *)

Module DfsadminMore.
Import Dfsadmin DfsadminFacts Pairs.

(** *** Reports without parentheses in their headers *)

Lemma scalar_only_init : scalar_only init.
Proof. split; [done|]. intros sec; discriminate. Qed.

Lemma step_scalar_only st l :
  scalar_only st → header_with_parenthesis l = false →
  ∃ st', step st l = Return st' ∧ scalar_only st'.
Proof.
  intros [Harr Hopen] Hl. unfold header_with_parenthesis in Hl.
  destruct (is_header l) eqn:Hh; simpl in Hl.
  - rewrite (step_header_line _ _ Hh). unfold header, count_of.
    destruct (contains "(" (split_head ":" (strip l))) eqn:E.
    { apply contains_split_head in E. congruence. }
    simpl. rewrite Hl. eexists. split; [done|]. split; [done|].
    intros sec _. simpl. split; [done|lia].
  - destruct (is_key_value l) eqn:Hkv.
    + rewrite (step_key_value_line _ _ Hkv). unfold key_value.
      destruct (in_object_section st && (0 <? objects_remaining st)%Z) eqn:Hg.
      { eexists. split; [done|]. split; [done|]. simpl. apply Hopen. }
      destruct (current_section st) as [sec|] eqn:Hcs.
      * destruct (Hopen sec eq_refl) as [Hio Hrem].
        rewrite Hio in Hg. simpl in Hg. apply Z.ltb_ge in Hg. lia.
      * eexists. split; [done|]. split; [done|]. simpl. intros ?; discriminate.
    + destruct (is_blank l) eqn:Hb.
      * rewrite (step_blank_line _ _ Hb). eexists. split; [done|].
        unfold blank. destruct (current_section st) as [sec|] eqn:Hcs.
        2:{ split; [done|]. rewrite Hcs. intros ?; discriminate. }
        destruct (Hopen sec eq_refl) as [Hio Hrem]. rewrite Hio, Harr. simpl.
        split; [done|]. intros ?; discriminate.
      * rewrite (step_other_line _ _ Hh Hkv Hb). exists st. split; [done|]. by split.
Qed.

Lemma run_scalar_only lines : ∀ st,
  scalar_only st → forallb (fun l => negb (header_with_parenthesis l)) lines = true →
  ∃ st', run step st lines = Return st' ∧ scalar_only st'.
Proof.
  induction lines as [|l lines IH]; intros st Hst; simpl; [eauto|].
  intros [Hl%negb_true_iff Hls]%andb_true_iff.
  destruct (step_scalar_only st l Hst Hl) as (st1 & -> & Hst1). simpl. by apply IH.
Qed.

(** A capacity report none of whose header lines has an opening
    parenthesis is interpreted without any exception. *)
Theorem dfs_no_parenthesis_no_exception text :
  forallb (fun l => negb (header_with_parenthesis l)) (splitlines text) = true →
  ∃ r, interpret_dfsadmin_report text = Return r.
Proof.
  intros H. unfold interpret_dfsadmin_report, interpret_dfsadmin_lines.
  destruct (run_scalar_only _ _ scalar_only_init H) as (st & -> & _). simpl. eauto.
Qed.

(** *** A pair under a name that is bound to a string or a list *)

(** A pair that directly follows a header with a count of zero or less
    is assigned into what the report holds under the name of the
    section; when that is a string or a list, the assignment raises
    [TypeError] and the call ends. *)
Theorem pair_under_bound_name_raises text pre st0 h l post n x :
  splitlines text = pre ++ h :: l :: post →
  run step init pre = Return st0 →
  is_array_header h = true →
  int (count_literal (strip h)) = Some n → (n ≤ 0)%Z →
  is_key_value l = true →
  flush_at_header st0 !! key_of (strip h) = Some x →
  (∀ o, x ≠ Object o) →
  interpret_dfsadmin_report text = Raise TypeError.
Proof.
  intros Htext Hpre [Hh Hc]%andb_true_iff Hn Hle Hl Hx Hno.
  destruct (key_of_array_header _ Hc) as (a & s & Hname).
  unfold interpret_dfsadmin_report, interpret_dfsadmin_lines. rewrite Htext.
  rewrite (run_app_Return _ _ _ _ _ Hpre). simpl.
  rewrite (step_header_line _ _ Hh), (header_array _ _ _ Hc Hn). simpl.
  rewrite (step_key_value_line _ _ Hl). unfold key_value. simpl.
  replace (0 <? n)%Z with false by (symmetry; apply Z.ltb_ge; lia). simpl.
  set (name := key_of (strip h)) in *. clearbody name. subst name. simpl.
  rewrite Hx. unfold setitem_in. rewrite Hx. destruct x as [v|o|ol]; [done| |done].
  by destruct (Hno o).
Qed.

(** *** No more entries than the header declares *)

Lemma within_header st line n :
  contains "(" (split_head ":" line) = true → int (count_literal line) = Some n →
  ∃ st', header st line = Return st' ∧ within (key_of line) n st'
         ∧ dfsadmin_dict st' = flush_at_header st.
Proof.
  intros Hc Hn. rewrite (header_array _ _ _ Hc Hn). eexists. split; [done|].
  split; [|done]. split; [done|]. split; [done|]. simpl. split; [lia|done].
Qed.

Lemma step_within name n st l st' :
  within name n st → is_header l = false → step st l = Return st' →
  within name n st'.
Proof.
  intros (Hcs & Harr & Hlen & Ho) Hh.
  destruct (is_key_value l) eqn:Hkv.
  - rewrite (step_key_value_line _ _ Hkv). unfold key_value.
    destruct (in_object_section st && (0 <? objects_remaining st)%Z) eqn:Hg.
    + intros [= <-]. split; [done|]. split; [done|]. split; [done|]. simpl.
      intros _. apply andb_true_iff in Hg as [-> Hrem%Z.ltb_lt]. done.
    + rewrite Hcs. destruct (truthy (Some name)).
      * intros (d' & _ & [= <-])%bind_Return_inv.
        split; [done|]. split; [done|]. split; [done|]. exact Ho.
      * intros [= <-]. split; [done|]. split; [done|]. split; [done|]. exact Ho.
  - destruct (is_blank l) eqn:Hb.
    + rewrite (step_blank_line _ _ Hb). intros [= <-]. unfold blank.
      rewrite Hcs. destruct (in_object_section st) eqn:Hio.
      2:{ split; [done|]. split; [done|]. split; [done|]. by rewrite Hio. }
      rewrite Harr. simpl. case_bool_decide as Hempty.
      * split; [done|]. split; [done|]. split; [done|]. done.
      * destruct (Ho Hempty) as [Hrem _].
        split; [done|]. split; [done|]. simpl. split; [|done].
        rewrite length_app. simpl. lia.
    + rewrite (step_other_line _ _ Hh Hkv Hb). intros [= <-].
      split; [done|]. split; [done|]. split; [done|]. exact Ho.
Qed.

Lemma run_within name n lines : ∀ st st',
  within name n st → forallb (fun l => negb (is_header l)) lines = true →
  run step st lines = Return st' → within name n st'.
Proof.
  induction lines as [|l lines IH]; intros st st' Hst; simpl.
  - by intros _ [= <-].
  - intros [Hl%negb_true_iff Hls]%andb_true_iff (st1 & Hstep & Hrun)%bind_Return_inv.
    apply (IH st1 st'); [|done|done]. by apply (step_within name n st l).
Qed.

(** An array section never gives more entries than its header declares:
    whatever lines follow the header up to the next header or the end of
    the input, the list that the returned report holds under the name of
    the section has at most [n] dictionaries for a declared count [n],
    and none for a negative one, as long as no later line uses the name
    again. *)
Theorem array_section_at_most_declared text pre h body post n r :
  splitlines text = pre ++ h :: body ++ post →
  is_array_header h = true →
  int (count_literal (strip h)) = Some n →
  forallb (fun l => negb (is_header l)) body = true →
  section_end [] post = true →
  forallb (not_named (key_of (strip h))) post = true →
  interpret_dfsadmin_report text = Return r →
  ∃ ol, r !! key_of (strip h) = Some (List ol)
        ∧ (Z.of_nat (length ol) ≤ Z.max 0 n)%Z.
Proof.
  intros Htext [Hh Hc]%andb_true_iff Hn Hbody Hend Hnamed.
  unfold interpret_dfsadmin_report, interpret_dfsadmin_lines. rewrite Htext.
  intros (stf & Hrun & [= <-])%bind_Return_inv.
  set (name := key_of (strip h)) in *.
  destruct (key_of_array_header _ Hc) as (a & s & Hname). fold name in Hname.
  apply run_app_inv in Hrun as (st0 & Hpre & Hrun).
  simpl in Hrun. apply bind_Return_inv in Hrun as (st1 & Hstep & Hrun).
  rewrite (step_header_line _ _ Hh) in Hstep.
  destruct (within_header st0 _ _ Hc Hn) as (st1' & Hst1' & Hw & _).
  rewrite Hst1' in Hstep. injection Hstep as ->. fold name in Hw.
  apply run_app_inv in Hrun as (st2 & Hrun2 & Hrun).
  pose proof (run_within name n body st1 st2 Hw Hbody Hrun2) as (Hcs & Harr & Hlen & Ho).
  destruct post as [|h2 post].
  - simpl in Hrun. injection Hrun as <-. unfold finish.
    rewrite Hcs, Hname, Harr. simpl. rewrite lookup_insert_eq.
    eexists. split; [done|]. case_bool_decide as Hempty; [lia|].
    destruct (Ho Hempty) as [Hrem _]. rewrite length_app. simpl. lia.
  - simpl in Hrun, Hnamed, Hend. rewrite andb_true_r in Hend.
    apply andb_true_iff in Hnamed as [Hh2 Hnamed].
    apply bind_Return_inv in Hrun as (st3 & Hstep & Hrun).
    rewrite (step_header_line _ _ Hend) in Hstep.
    assert (Hne : key_of (strip h2) ≠ name).
    { unfold not_named in Hh2. unfold is_header in Hend.
      apply andb_true_iff in Hend as [Hcol _]. rewrite Hcol in Hh2. simpl in Hh2.
      by apply negb_true_iff, String.eqb_neq in Hh2. }
    unfold header in Hstep. apply bind_Return_inv in Hstep as (n2 & _ & [= <-]).
    destruct (run_frame name post _ _ Hrun) as [E Hcs']; [simpl; congruence|done|].
    rewrite (finish_frame name stf Hcs'), E. simpl.
    unfold flush_at_header. rewrite Hcs, Hname, Harr. simpl.
    rewrite lookup_insert_eq. eexists. split; [done|]. lia.
Qed.

Lemma step_header_no_parenthesis st h :
  is_header h = true → contains "(" (strip h) = false →
  step st h = Return (State (flush_at_header st) (Some (key_of (strip h)))
                        [] ∅ 1 true false).
Proof.
  intros Hh Hno. rewrite (step_header_line _ _ Hh). unfold header, count_of.
  destruct (contains "(" (split_head ":" (strip h))) eqn:E.
  { apply contains_split_head in E. congruence. }
  simpl. by rewrite Hno.
Qed.

(** *** What a section holds *)

Lemma assign_all_nonempty kvs : ∀ m,
  m ≠ ∅ ∨ nonempty kvs = true → assign_all m kvs ≠ ∅.
Proof.
  induction kvs as [|[k v] kvs IH]; intros m; simpl.
  - by intros [?|?].
  - intros _. apply IH. left. apply insert_non_empty.
Qed.

Lemma dfs_pairs_key_values kvs :
  forallb is_key_value kvs = true →
  dfs_pairs kvs = map (fun l => (key_of (strip l), value_of (strip l))) kvs.
Proof.
  induction kvs as [|l kvs IH]; simpl; [done|].
  intros [Hl Hkvs]%andb_true_iff. unfold dfs_pairs, dfs_pair in *. simpl.
  rewrite Hl. simpl. f_equal. by apply IH.
Qed.

Lemma run_pairs_content d name L rem kvs : ∀ o,
  (0 < rem)%Z → forallb is_key_value kvs = true →
  run step (in_array d name L o rem true) kvs
  = Return (in_array d name L (assign_all o (dfs_pairs kvs)) rem true).
Proof.
  induction kvs as [|l kvs IH]; intros o Hrem Hkvs; simpl; [done|].
  simpl in Hkvs. apply andb_true_iff in Hkvs as [Hl Hkvs].
  rewrite (step_key_value_line _ _ Hl), (key_value_in_entry _ _ _ _ _ _ _ Hrem). simpl.
  rewrite (IH _ Hrem Hkvs). unfold dfs_pairs, dfs_pair. simpl. by rewrite Hl.
Qed.

Lemma run_entry_content d name L rem e :
  (0 < rem)%Z → entry_ok e = true →
  run step (in_array d name L ∅ rem true) (entry_lines e)
  = Return (in_array d name (L ++ [entry_object e]) ∅ (rem - 1) true).
Proof.
  intros Hrem. unfold entry_ok, entry_lines, entry_object.
  intros [[[Hne Hkvs]%andb_true_iff Hnb]%andb_true_iff Hbs]%andb_true_iff.
  rewrite (run_app_Return _ _ _ _ _ (run_pairs_content d name L rem _ ∅ Hrem Hkvs)).
  destruct (entry_blanks e) as [|b bs]; [done|]. simpl in *.
  apply andb_true_iff in Hbs as [Hb Hbs].
  rewrite (step_blank_line _ _ Hb), blank_ends_entry.
  2:{ apply assign_all_nonempty. right.
      rewrite (dfs_pairs_key_values _ Hkvs). by destruct (entry_pairs e). }
  simpl. by apply run_blanks.
Qed.

Lemma run_entries_content d name es : ∀ L rem,
  (Z.of_nat (length es) ≤ rem)%Z → forallb entry_ok es = true →
  run step (in_array d name L ∅ rem true) (flat_map entry_lines es)
  = Return (in_array d name (L ++ map entry_object es) ∅
              (rem - Z.of_nat (length es)) true).
Proof.
  induction es as [|e es IH]; intros L rem Hlen Hes.
  - simpl. by rewrite app_nil_r, Z.sub_0_r.
  - simpl in Hes. apply andb_true_iff in Hes as [He Hes]. simpl length in *.
    simpl flat_map.
    rewrite (run_app_Return _ _ _ _ _ (run_entry_content d name L rem e ltac:(lia) He)).
    rewrite (IH (L ++ [entry_object e]) (rem - 1)%Z ltac:(lia) Hes).
    simpl. rewrite <- app_assoc. simpl. do 2 f_equal. lia.
Qed.

(** The list of an array section that has no more entries than its
    header declares is made of the entries of the report, in their
    order: each dictionary holds the pairs of one entry, with
    normalized keys and cut values, a later pair replacing an earlier
    one with the same key.  The section is the last one of the input,
    the lines before its header are read without exception, and its
    last entry may lack the blank line. *)
Theorem array_section_entries text pre st0 h blanks0 es last (n : nat) :
  splitlines text = pre ++ h :: blanks0 ++ flat_map entry_lines es ++ last →
  run step init pre = Return st0 →
  is_array_header h = true →
  int (count_literal (strip h)) = Some (Z.of_nat n) →
  forallb is_blank blanks0 = true →
  forallb entry_ok es = true →
  forallb is_key_value last = true →
  (entry_count es last ≤ n)%nat →
  ∃ r, interpret_dfsadmin_report text = Return r
       ∧ r !! key_of (strip h)
         = Some (List (map entry_object es
                       ++ if nonempty last then [assign_all ∅ (dfs_pairs last)] else [])).
Proof.
  intros Htext Hpre [Hh Hc]%andb_true_iff Hn Hb0 Hes Hlast Hcount.
  set (name := key_of (strip h)).
  destruct (key_of_array_header _ Hc) as (a & s & Hname). fold name in Hname.
  set (D := flush_at_header st0).
  unfold interpret_dfsadmin_report, interpret_dfsadmin_lines. rewrite Htext.
  rewrite (run_app_Return _ _ _ _ _ Hpre). simpl.
  rewrite (step_header_line _ _ Hh), (header_array _ _ _ Hc Hn). simpl.
  fold name D (in_array D name [] ∅ (Z.of_nat n) (0 <? Z.of_nat n)%Z).
  rewrite (run_app_Return _ _ _ _ _ (run_blanks D name [] _ _ blanks0 Hb0)).
  unfold entry_count in Hcount.
  destruct (decide (n = 0)) as [->|Hpos].
  - destruct es; [|simpl in Hcount; lia].
    destruct last; [|simpl in Hcount; lia].
    simpl. eexists. split; [done|].
    by rewrite (finish_in_array _ _ _ _ _ _ a s Hname), lookup_insert_eq.
  - replace (0 <? Z.of_nat n)%Z with true by (symmetry; apply Z.ltb_lt; lia).
    rewrite (run_app_Return _ _ _ _ _
               (run_entries_content D name es [] (Z.of_nat n) ltac:(lia) Hes)).
    simpl app.
    destruct last as [|l0 last].
    + simpl. eexists. split; [done|].
      rewrite (finish_in_array _ _ _ _ _ _ a s Hname), lookup_insert_eq.
      by rewrite app_nil_r.
    + rewrite (run_pairs_content D name _ _ (l0 :: last) ∅)
        by (done || (simpl in Hcount; lia)).
      assert (Ho : assign_all ∅ (dfs_pairs (l0 :: last)) ≠ ∅).
      { apply assign_all_nonempty. right. by rewrite (dfs_pairs_key_values _ Hlast). }
      set (o := assign_all ∅ (dfs_pairs (l0 :: last))) in *.
      simpl. eexists. split; [done|].
      rewrite (finish_in_array _ _ _ _ _ _ a s Hname), lookup_insert_eq.
      by rewrite bool_decide_eq_false_2.
Qed.

(** A section whose header has no parenthesis holds the pairs of the
    lines between its header and the blank line that ends it, a later
    pair replacing an earlier one with the same key; the report that is
    returned holds them under the name of the section as long as no
    later line uses the name again. *)
Theorem scalar_section_content text pre st0 h kvs b post r :
  splitlines text = pre ++ h :: kvs ++ b :: post →
  run step init pre = Return st0 →
  is_header h = true → contains "(" (strip h) = false →
  forallb is_key_value kvs = true →
  is_blank b = true →
  forallb (not_named (key_of (strip h))) post = true →
  interpret_dfsadmin_report text = Return r →
  r !! key_of (strip h) = Some (Object (assign_all ∅ (dfs_pairs kvs))).
Proof.
  intros Htext Hpre Hh Hno Hkvs Hb Hnamed.
  unfold interpret_dfsadmin_report, interpret_dfsadmin_lines. rewrite Htext.
  rewrite (run_app_Return _ _ _ _ _ Hpre). simpl.
  rewrite (step_header_no_parenthesis st0 h Hh Hno). simpl.
  set (name := key_of (strip h)) in *. set (D := flush_at_header st0).
  assert (Hrun : ∀ kvs o, forallb is_key_value kvs = true →
            run step (State D (Some name) [] o 1 true false) kvs
            = Return (State D (Some name) [] (assign_all o (dfs_pairs kvs)) 1 true false)).
  { clear. induction kvs as [|l kvs IH]; intros o; simpl; [done|].
    intros [Hl Hkvs]%andb_true_iff.
    rewrite (step_key_value_line _ _ Hl). unfold key_value. simpl.
    rewrite (IH _ Hkvs). unfold dfs_pairs, dfs_pair. simpl. by rewrite Hl. }
  rewrite (run_app_Return _ _ _ _ _ (Hrun kvs ∅ Hkvs)). simpl.
  rewrite (step_blank_line _ _ Hb). simpl.
  intros (stf & Hpost & [= <-])%bind_Return_inv.
  destruct (run_frame name post _ _ Hpost) as [E Hcs]; [done|done|].
  rewrite (finish_frame name stf Hcs), E. simpl. by rewrite lookup_insert_eq.
Qed.

(** *** Lines that do not matter *)

Lemma dfs_run_top_level lines : ∀ m,
  forallb (fun l => negb (is_header l)) lines = true →
  run step (State (Leaf <$> m) None [] ∅ 0 false false) lines
  = Return (State (Leaf <$> assign_all m (dfs_pairs lines)) None [] ∅ 0 false false).
Proof.
  induction lines as [|l lines IH]; intros m; simpl; [done|].
  intros [Hl%negb_true_iff Hls]%andb_true_iff.
  unfold dfs_pairs, dfs_pair. simpl.
  destruct (is_key_value l) eqn:Hkv.
  - rewrite (step_key_value_line _ _ Hkv). unfold key_value. simpl.
    rewrite <- fmap_insert. by apply IH.
  - destruct (is_blank l) eqn:Hb.
    + rewrite (step_blank_line _ _ Hb). simpl. by apply IH.
    + rewrite (step_other_line _ _ Hl Hkv Hb). simpl. by apply IH.
Qed.

(** Without any header line every pair of a capacity report is stored
    at the top level, with its normalized key and its cut value, a later
    pair replacing an earlier one with the same key. *)
Theorem dfs_top_level_without_header text :
  forallb (fun l => negb (is_header l)) (splitlines text) = true →
  interpret_dfsadmin_report text
  = Return (Leaf <$> assign_all ∅ (dfs_pairs (splitlines text))).
Proof.
  intros H. unfold interpret_dfsadmin_report, interpret_dfsadmin_lines.
  pose proof (dfs_run_top_level (splitlines text) ∅ H) as Hrun.
  rewrite fmap_empty in Hrun. unfold init. by rewrite Hrun.
Qed.

Lemma dfs_run_skip lines : ∀ st,
  run step st (List.filter dfs_read lines) = run step st lines.
Proof.
  induction lines as [|l lines IH]; intros st; simpl; [done|].
  destruct (dfs_read l) eqn:Hr; simpl.
  - destruct (step st l); simpl; [apply IH|done].
  - unfold dfs_read in Hr. apply orb_false_iff in Hr as [Hc Hb].
    rewrite (step_other_line st l); [by simpl|..|done].
    + unfold is_header. by rewrite Hc.
    + unfold is_key_value. by rewrite Hc.
Qed.

(** A line that is not blank and has no colon is skipped: taking all
    such lines out of a capacity report changes neither the report that
    is returned nor the exception that is raised. *)
Theorem dfs_unparsable_lines_skipped lines :
  interpret_dfsadmin_lines (List.filter dfs_read lines) = interpret_dfsadmin_lines lines.
Proof. unfold interpret_dfsadmin_lines. by rewrite dfs_run_skip. Qed.

Lemma dfs_step_strip st l : step st (strip l) = step st l.
Proof. unfold step. by rewrite Sound.strip_idem. Qed.

(** The whitespace around a line of a capacity report does not matter:
    stripping every line first changes neither the report nor the
    exception. *)
Theorem dfs_indentation_ignored lines :
  interpret_dfsadmin_lines (map strip lines) = interpret_dfsadmin_lines lines.
Proof.
  unfold interpret_dfsadmin_lines. f_equal.
  generalize init. induction lines as [|l lines IH]; intros st; simpl; [done|].
  rewrite dfs_step_strip. destruct (step st l); simpl; [apply IH|done].
Qed.

(** A line without a colon is skipped by the interpreter of the
    consistency report, a blank line included. *)
Theorem fsck_lines_without_colon_skipped lines :
  Fsck.interpret_fsck_lines (List.filter (contains ":") lines)
  = Fsck.interpret_fsck_lines lines.
Proof.
  unfold Fsck.interpret_fsck_lines. f_equal.
  generalize Fsck.init. induction lines as [|l lines IH]; intros st; simpl; [done|].
  destruct (contains ":" l) eqn:Hc; simpl.
  - destruct (Fsck.step st l); simpl; [apply IH|done].
  - assert (Fsck.step st l = Return st) as -> by (unfold Fsck.step; by rewrite Hc).
    simpl. apply IH.
Qed.

End DfsadminMore.

(** ** Exceptions and edge cases of the capacity report *)

Module DfsadminEdges.
Import Dfsadmin DfsadminFacts Pairs.

Lemma step_raises st l e :
  step st l = Raise e →
  e = TypeError
  ∨ (is_array_header l = true ∧ int (count_literal (strip l)) = None
     ∧ e = ValueError (count_literal (strip l))).
Proof.
  unfold step. destruct (contains ":" (strip l)) eqn:Hc.
  - destruct (String.eqb (value_of (strip l)) "") eqn:Hv.
    + unfold header, count_of.
      destruct (contains "(" (split_head ":" (strip l))) eqn:Hp; [|done].
      destruct (int (count_literal (strip l))) eqn:Hn; [done|]. simpl.
      intros [= <-]. right. unfold is_array_header, is_header.
      by rewrite Hc, Hv, Hp.
    + unfold key_value.
      destruct (in_object_section st && (0 <? objects_remaining st)%Z); [done|].
      destruct (current_section st) as [sec|]; [|done].
      destruct (truthy (Some sec)); [|done].
      unfold setitem_in.
      destruct (dfsadmin_dict st !! sec) as [x|] eqn:Hd.
      * rewrite Hd. destruct x; simpl; try done; intros [= <-]; by left.
      * by rewrite lookup_insert_eq.
  - by destruct (String.eqb (strip l) "").
Qed.

Lemma run_raises lines : ∀ st e,
  run step st lines = Raise e → ∃ st' l, l ∈ lines ∧ step st' l = Raise e.
Proof.
  induction lines as [|l lines IH]; intros st e; simpl; [done|].
  destruct (step st l) as [st1|e1] eqn:Hstep; simpl.
  - intros (st' & l' & Hin & Hl')%IH. exists st', l'. split; [|done].
    apply elem_of_cons. by right.
  - intros [= <-]. exists st, l. split; [|done]. apply elem_of_cons. by left.
Qed.

(** The interpreter of the capacity report raises two exceptions only:
    the [ValueError] of [int] for a header of the input whose key has a
    parenthesis and whose count is no integer, carrying the text of the
    count, and [TypeError] for a pair assigned into a string or a list.
    It never raises [KeyError]. *)
Theorem dfs_exceptions text e :
  interpret_dfsadmin_report text = Raise e →
  e = TypeError
  ∨ ∃ h, h ∈ splitlines text ∧ is_array_header h = true
         ∧ int (count_literal (strip h)) = None
         ∧ e = ValueError (count_literal (strip h)).
Proof.
  unfold interpret_dfsadmin_report, interpret_dfsadmin_lines.
  destruct (run step init (splitlines text)) as [st|e'] eqn:Hrun; simpl; [done|].
  intros [= <-]. destruct (run_raises _ _ _ Hrun) as (st' & l & Hin & Hl).
  destruct (step_raises _ _ _ Hl) as [->|(Hh & Hn & ->)]; [by left|].
  right. by exists l.
Qed.

(** A section whose header has an empty key is lost at the end of the
    input: the pairs that follow the header are not in the report that
    is returned, which is the report as the header left it. *)
Theorem empty_named_section_dropped text pre st0 h kvs :
  splitlines text = pre ++ h :: kvs →
  run step init pre = Return st0 →
  is_header h = true → key_of (strip h) = "" →
  forallb is_key_value kvs = true →
  interpret_dfsadmin_report text = Return (flush_at_header st0).
Proof.
  intros Htext Hpre Hh Hkey Hkvs.
  assert (Hno : contains "(" (split_head ":" (strip h)) = false).
  { destruct (contains "(" (split_head ":" (strip h))) eqn:E; [|done].
    destruct (key_of_array_header _ E) as (a & s & Hs). congruence. }
  unfold interpret_dfsadmin_report, interpret_dfsadmin_lines. rewrite Htext.
  rewrite (run_app_Return _ _ _ _ _ Hpre). simpl.
  rewrite (step_header_line _ _ Hh). unfold header, count_of. rewrite Hno, Hkey. simpl.
  set (D := flush_at_header st0).
  assert (Hrun : ∀ kvs o arr, forallb is_key_value kvs = true →
            ∃ o', run step (State D (Some "") [] o 1 true arr) kvs
                  = Return (State D (Some "") [] o' 1 true arr)).
  { clear. induction kvs as [|l kvs IH]; intros o arr; simpl; [eauto|].
    intros [Hl Hkvs]%andb_true_iff.
    rewrite (step_key_value_line _ _ Hl). unfold key_value. simpl. by apply IH. }
  change (0 <? 1)%Z with true.
  destruct (Hrun kvs ∅ (contains "(" (strip h)) Hkvs) as [o' ->]. done.
Qed.

(** A normalized key has no space and no percent sign in it, [lower]
    leaves it as it is, and it does not start with whitespace. *)
Theorem normalize_settles key :
  allc settled (normalize key) = true ∧ head_nonspace (normalize key) = true.
Proof.
  split; [apply NormalizeFacts.normalize_settled|apply NormalizeFacts.head_nonspace_normalize].
Qed.

End DfsadminEdges.

(** ** The listing and the configuration files *)

Module ListingFacts.
Import Listing.

Lemma loop_unbound {D : Type} lines : ∀ listing : list (@entry D),
  loop None listing lines
  = if existsb listed lines then Fail (NameError "datetime") else Ok listing.
Proof.
  induction lines as [|l lines IH]; intros listing; simpl; [done|].
  unfold step, listed. destruct (8 <=? length (split_ws l))%nat; simpl; [done|apply IH].
Qed.

Lemma parse_hdfs_listing_never_lists_run text :
  parse_hdfs_listing text
  = if existsb listed (splitlines text) then Fail (NameError "datetime") else Ok [].
Proof. apply loop_unbound. Qed.

(** [parse_hdfs_listing] never returns an entry: the name [datetime]
    that it uses is not bound in the module, so the first line with
    eight fields or more ends the call with [NameError]; the empty list
    is returned when there is no such line. *)
Theorem parse_hdfs_listing_never_lists text :
  parse_hdfs_listing text
  = if existsb listed (splitlines text) then Fail (NameError "datetime") else Ok [].
Proof. apply parse_hdfs_listing_never_lists_run. Qed.

Lemma loop_bound {D : Type} (strptime : string → string → result D) (date : string → D)
    lines : ∀ listing,
  Forall (fun l => listed l = true →
                   strptime (date_of l) "%Y-%m-%d %H:%M" = Return (date l)) lines →
  loop (Some strptime) listing lines
  = Ok (listing ++ map (entry_of date) (List.filter listed lines)).
Proof.
  induction lines as [|l lines IH]; intros listing Hall; simpl.
  - by rewrite app_nil_r.
  - apply Forall_cons in Hall as [Hl Hall]. unfold step, listed in *.
    destruct (8 <=? length (split_ws l))%nat eqn:E; simpl.
    + unfold date_of in Hl. rewrite (Hl eq_refl), (IH _ Hall).
      by rewrite <- app_assoc.
    + by apply IH.
Qed.

(** With the name [datetime] bound, and every date accepted by its
    [strptime], the listing has one entry for each line with eight
    fields or more, in the order of the lines: the first five fields,
    the date parsed from the sixth and the seventh, and the fields from
    the eighth on joined by single spaces as the path. *)
Theorem parse_hdfs_listing_with_datetime {D : Type}
    (strptime : string → string → result D) (date : string → D) text :
  Forall (fun l => listed l = true →
                   strptime (date_of l) "%Y-%m-%d %H:%M" = Return (date l))
    (splitlines text) →
  parse_hdfs_listing_with (Some strptime) text
  = Ok (map (entry_of date) (List.filter listed (splitlines text))).
Proof. intros H. unfold parse_hdfs_listing_with. by rewrite (loop_bound _ date). Qed.

End ListingFacts.

Module ConfigFacts.
Import Config.

Lemma set_properties_spec ps : ∀ d,
  set_properties d ps
  = if forallb complete ps then Ok (set_all d (map pair_of ps)) else Fail AttributeError.
Proof.
  induction ps as [|p ps IH]; intros d; simpl; [done|].
  unfold set_property, complete, pair_of.
  destruct (find "name" p) as [name|]; [|done].
  destruct (find "value" p) as [value|]; [|done]. simpl. apply IH.
Qed.

Lemma read_file_spec d file :
  read_file d file
  = if forallb complete (properties_of file)
    then Ok (set_all d (map pair_of (properties_of file))) else Fail AttributeError.
Proof. destruct file as [root|]; simpl; [apply set_properties_spec|done]. Qed.

Lemma get_all_hdfs_configurations_run hdfs_site core_site :
  get_all_hdfs_configurations hdfs_site core_site
  = if forallb complete (properties_of hdfs_site ++ properties_of core_site)
    then Ok (set_all ∅ (map pair_of (properties_of hdfs_site ++ properties_of core_site)))
    else Fail AttributeError.
Proof.
  unfold get_all_hdfs_configurations. rewrite read_file_spec, forallb_app.
  destruct (forallb complete (properties_of hdfs_site)); simpl; [|done].
  rewrite read_file_spec.
  destruct (forallb complete (properties_of core_site)); [|done].
  unfold set_all. by rewrite map_app, foldl_app.
Qed.

(** [get_all_hdfs_configurations] raises [AttributeError] when a
    [property] element of one of the files has no [name] or no [value]
    child, and no other exception; else it returns the dictionary that
    the properties of [hdfs-site.xml] and then those of [core-site.xml]
    set in their order, a later property replacing an earlier one with
    the same name.  A file that is missing counts as one without
    properties. *)
Theorem get_all_hdfs_configurations_spec hdfs_site core_site :
  get_all_hdfs_configurations hdfs_site core_site
  = if forallb complete (properties_of hdfs_site ++ properties_of core_site)
    then Ok (set_all ∅ (map pair_of (properties_of hdfs_site ++ properties_of core_site)))
    else Fail AttributeError.
Proof. apply get_all_hdfs_configurations_run. Qed.

Lemma set_all_union kvs : ∀ d, set_all d kvs = set_all ∅ kvs ∪ d.
Proof.
  induction kvs as [|[k v] kvs IH]; intros d.
  - simpl. by rewrite (left_id_L ∅ (∪)).
  - change (set_all d ((k, v) :: kvs)) with (set_all (<[k := v]> d) kvs).
    change (set_all ∅ ((k, v) :: kvs)) with (set_all (<[k := v]> ∅) kvs).
    rewrite (IH (<[k := v]> d)), (IH (<[k := v]> ∅)).
    rewrite <- (assoc_L (∪)). f_equal.
    rewrite insert_union_singleton_l, insert_union_singleton_l.
    by rewrite (right_id_L ∅ (∪)).
Qed.

(** [core-site.xml] has the last word: when the call returns, what is
    returned is what [core-site.xml] alone gives, completed by what
    [hdfs-site.xml] alone gives for the names that [core-site.xml] does
    not set. *)
Theorem core_site_overrides_hdfs_site hdfs_site core_site d :
  get_all_hdfs_configurations hdfs_site core_site = Ok d →
  ∃ dh dc, get_all_hdfs_configurations hdfs_site None = Ok dh
           ∧ get_all_hdfs_configurations None core_site = Ok dc
           ∧ d = dc ∪ dh.
Proof.
  rewrite !get_all_hdfs_configurations_run. simpl. rewrite app_nil_r, forallb_app.
  destruct (forallb complete (properties_of hdfs_site)); [|done].
  destruct (forallb complete (properties_of core_site)); [|done]. simpl.
  intros [= <-]. eexists _, _. split; [done|]. split; [done|].
  unfold set_all at 1. rewrite map_app, foldl_app.
  apply (set_all_union (map pair_of (properties_of core_site))).
Qed.

End ConfigFacts.

(** ** The discovery through the command line *)

Module CliFacts.
Import Cli.

Section cli_facts.
Context (hdfs_cmd : string) (stdout : list string → string)
        (hdfs_site core_site : option Config.element).

(** With [include_hdfs_files] set, the discovery through the command
    line fails with [NameError] whenever the capacity report is
    interpreted without exception and the recursive listing has a line
    with eight fields or more. *)
Theorem cli_discovery_fails_on_listing r :
  Dfsadmin.interpret_dfsadmin_report
    (run_hdfs_command stdout [hdfs_cmd; "dfsadmin"; "-report"]) = Return r →
  existsb Listing.listed
    (splitlines (run_hdfs_command stdout [hdfs_cmd; "dfs"; "-ls"; "-R"; "/"])) = true →
  hdfs_cli_discovery hdfs_cmd true stdout hdfs_site core_site
  = Fail (NameError "datetime").
Proof.
  intros Hr Hls. unfold hdfs_cli_discovery.
  destruct (FsckMore.fsck_never_raises_run
              (run_hdfs_command stdout [hdfs_cmd; "fsck"; "/"])) as [f ->].
  simpl. rewrite Hr. simpl.
  rewrite ListingFacts.parse_hdfs_listing_never_lists_run, Hls. done.
Qed.

(** The discovery through the command line returns when the capacity
    report is interpreted without exception, the recursive listing,
    when it is asked for, has no line with eight fields or more, and
    every property of the configuration files is complete; the report of
    the capacity is the one of [interpret_dfsadmin_report], and the
    listing, when it is asked for, is empty. *)
Theorem cli_discovery_returns include_hdfs_files r :
  Dfsadmin.interpret_dfsadmin_report
    (run_hdfs_command stdout [hdfs_cmd; "dfsadmin"; "-report"]) = Return r →
  (include_hdfs_files = true →
   existsb Listing.listed
     (splitlines (run_hdfs_command stdout [hdfs_cmd; "dfs"; "-ls"; "-R"; "/"])) = false) →
  forallb Config.complete
    (Config.properties_of hdfs_site ++ Config.properties_of core_site) = true →
  ∃ i, hdfs_cli_discovery hdfs_cmd include_hdfs_files stdout hdfs_site core_site = Ok i
       ∧ dfsadmin i = r
       ∧ Fsck.interpret_fsck_output (run_hdfs_command stdout [hdfs_cmd; "fsck"; "/"])
         = Return (fsck i)
       ∧ files i = (if include_hdfs_files then Some [] else None)
       ∧ namenodes i
         = Listing.split_ws (strip (stdout [hdfs_cmd; "getconf"; "-namenodes"])).
Proof.
  intros Hr Hls Hconf. unfold hdfs_cli_discovery.
  destruct (FsckMore.fsck_never_raises_run
              (run_hdfs_command stdout [hdfs_cmd; "fsck"; "/"])) as [f Hf].
  rewrite Hf. simpl. rewrite Hr. simpl.
  rewrite ConfigFacts.get_all_hdfs_configurations_run, Hconf.
  destruct include_hdfs_files.
  - rewrite ListingFacts.parse_hdfs_listing_never_lists_run, (Hls eq_refl). simpl.
    eexists. split; [done|]. done.
  - simpl. eexists. split; [done|]. done.
Qed.

End cli_facts.

End CliFacts.

(** ** More reports, listings and configurations *)

Module MoreExamples.
Import Dfsadmin DfsadminFacts Pairs Reports.

Lemma dfs_report_strings_cut_witness : "qux" ≠ "" ∧ occurs " (" "qux" = false.
Proof.
  apply (Sound.dfs_report_strings_cut scalar_report
           (<["name" := Object {["foo" := "bar"]}]> {["baz" := Leaf "qux"]})
           "baz" (Leaf "qux")); vm_compute; reflexivity.
Defined.

Lemma dfs_report_entries_nonempty_witness :
  ({["name" := "10.0.0.1:50010"]} : gmap string string) ≠ ∅.
Proof.
  apply (Sound.dfs_report_entries_nonempty (join_lines one_node_report)
           {["live_datanodes" := List [{["name" := "10.0.0.1:50010"]}]]}
           "live_datanodes" [{["name" := "10.0.0.1:50010"]}]).
  - vm_compute. reflexivity.
  - vm_compute. reflexivity.
  - apply list_elem_of_singleton. reflexivity.
Defined.

Lemma dfs_report_keys_normalized_witness : allc settled "baz" = true ∧ True.
Proof.
  apply (Sound.dfs_report_keys_normalized scalar_report
           (<["name" := Object {["foo" := "bar"]}]> {["baz" := Leaf "qux"]})
           "baz" (Leaf "qux")); vm_compute; reflexivity.
Defined.

Lemma dfs_no_parenthesis_no_exception_witness :
  ∃ r, interpret_dfsadmin_report scalar_report = Return r.
Proof. apply DfsadminMore.dfs_no_parenthesis_no_exception. reflexivity. Defined.

Lemma pair_under_bound_name_raises_witness :
  interpret_dfsadmin_report (join_lines clash_report) = Raise TypeError.
Proof.
  apply (DfsadminMore.pair_under_bound_name_raises (join_lines clash_report)
           ["a: v"] (State {["a" := Leaf "v"]} None [] ∅ 0 false false)
           "A (0):" "x: y" [] 0 (Leaf "v")); try (vm_compute; reflexivity).
  - lia.
  - intros o. discriminate.
Defined.

Lemma array_section_at_most_declared_witness :
  ∃ ol, ({["a" := List [{["x" := "1"]}]]} : gmap string Value) !! key_of (strip "A (1):")
        = Some (List ol)
        ∧ (Z.of_nat (length ol) ≤ Z.max 0 1)%Z.
Proof.
  apply (DfsadminMore.array_section_at_most_declared (join_lines crowded_report)
           [] "A (1):" ["x: 1"; ""; "y: 2"; ""; "z: 3"] []); vm_compute; reflexivity.
Defined.

Lemma array_section_entries_witness :
  ∃ r, interpret_dfsadmin_report truncated_report = Return r
       ∧ r !! key_of (strip datanodes3)
         = Some (List (map entry_object [node1; node2]
                       ++ if nonempty ([] : list string)
                          then [assign_all ∅ (dfs_pairs [])] else [])).
Proof.
  apply (DfsadminMore.array_section_entries truncated_report [] init datanodes3 [""]
           [node1; node2] [] 3); try (vm_compute; reflexivity).
  vm_compute. lia.
Defined.

Lemma scalar_section_content_witness :
  (<["name" := Object {["foo" := "bar"]}]> {["baz" := Leaf "qux"]} : gmap string Value)
    !! key_of (strip "Name: ")
  = Some (Object (assign_all ∅ (dfs_pairs ["foo: bar"]))).
Proof.
  apply (DfsadminMore.scalar_section_content scalar_report [] init "Name: "
           ["foo: bar"] "" ["baz: qux"]); vm_compute; reflexivity.
Defined.

Lemma dfs_top_level_without_header_witness :
  interpret_dfsadmin_report "cluster_id: abc123"
  = Return (Leaf <$> assign_all ∅ (dfs_pairs (splitlines "cluster_id: abc123"))).
Proof. apply DfsadminMore.dfs_top_level_without_header. reflexivity. Defined.

Lemma dfs_exceptions_witness :
  ValueError "x" = TypeError
  ∨ ∃ h, h ∈ splitlines "Live datanodes (x):" ∧ is_array_header h = true
         ∧ int (count_literal (strip h)) = None
         ∧ ValueError "x" = ValueError (count_literal (strip h)).
Proof. apply DfsadminEdges.dfs_exceptions. vm_compute. reflexivity. Defined.

Lemma empty_named_section_dropped_witness :
  interpret_dfsadmin_report (join_lines [":"; "x: 1"]) = Return (flush_at_header init).
Proof.
  apply (DfsadminEdges.empty_named_section_dropped _ [] init ":" ["x: 1"]);
    vm_compute; reflexivity.
Defined.

Lemma parse_hdfs_listing_with_datetime_witness :
  Listing.parse_hdfs_listing_with (Some (fun s _ => Return s)) listing_line
  = Ok (map (Listing.entry_of Listing.date_of)
          (List.filter Listing.listed (splitlines listing_line))).
Proof.
  apply ListingFacts.parse_hdfs_listing_with_datetime.
  repeat constructor.
Defined.

Lemma core_site_overrides_hdfs_site_witness :
  ∃ dh dc,
    Config.get_all_hdfs_configurations hdfs_site_example None = Ok dh
    ∧ Config.get_all_hdfs_configurations None core_site_example = Ok dc
    ∧ (<[Some "dfs.replication" := Some "3"]> {[Some "fs.defaultFS" := Some "hdfs://b"]}
       : gmap (option string) (option string)) = dc ∪ dh.
Proof.
  apply ConfigFacts.core_site_overrides_hdfs_site. vm_compute. reflexivity.
Defined.

Lemma cli_discovery_fails_on_listing_witness :
  Cli.hdfs_cli_discovery "hdfs" true stdout_example hdfs_site_example core_site_example
  = Fail (NameError "datetime").
Proof.
  apply (CliFacts.cli_discovery_fails_on_listing "hdfs" stdout_example _ _ ∅);
    vm_compute; reflexivity.
Defined.

Lemma cli_discovery_returns_witness :
  ∃ i, Cli.hdfs_cli_discovery "hdfs" true stdout_silent hdfs_site_example core_site_example
       = Ok i
       ∧ Cli.dfsadmin i = ∅
       ∧ Fsck.interpret_fsck_output (Cli.run_hdfs_command stdout_silent ["hdfs"; "fsck"; "/"])
         = Return (Cli.fsck i)
       ∧ Cli.files i = Some []
       ∧ Cli.namenodes i
         = Listing.split_ws (strip (stdout_silent ["hdfs"; "getconf"; "-namenodes"])).
Proof.
  apply (CliFacts.cli_discovery_returns "hdfs" stdout_silent hdfs_site_example
           core_site_example true ∅); vm_compute; reflexivity.
Defined.

End MoreExamples.
